(** * hamster-cli: range defaulting, word wrapping and the listing report

    A shallow embedding of the pure logic of [src/hamster-cli.py]:
    [word_wrap], [fact_dict], the range defaulting of [HamsterCli.list] /
    [HamsterCli.search] and the report printed by [HamsterCli._list].

    Conventions.
    - A Python [str] is a [string]; one character of the model stands for one
      code point, so [len] is [String.length].
    - Python integers are [Z] where they may be negative ([max_len]) and [nat]
      where they are lengths or calendar fields.
    - [print] appends one string to the output, a [list string] with one
      element per call.
    - [None] is [option]'s [None]; [datetime] objects are always truthy, so
      [x or y] on an optional datetime is [y] exactly when [x] is [None]. *)

From Stdlib Require Import List String Ascii Bool Arith ZArith Lia.
From Stdlib Require Import Permutation Sorted DecimalString.
Import ListNotations.

Local Open Scope list_scope.
Local Open Scope string_scope.

(** ** Python string primitives *)

(** [str.isspace] on one character, for the code points below 256: the
    characters that [str.split()] and [str.strip()] treat as whitespace. *)
Definition isspace (c : ascii) : bool :=
  let n := nat_of_ascii c in
  (Nat.leb 9 n && Nat.leb n 13) || (Nat.leb 28 n && Nat.leb n 32)
  || Nat.eqb n 133 || Nat.eqb n 160.

(** Truthiness of a [str]: the empty string is falsy. *)
Definition truthy (s : string) : bool :=
  match s with
  | EmptyString => false
  | String _ _ => true
  end.

(** Puts a character in front of the first word of a word list. *)
Definition cons_head (c : ascii) (ws : list string) : list string :=
  match ws with
  | [] => [String c ""]
  | w :: ws' => String c w :: ws'
  end.

(** [str.split()] without a separator: the maximal runs of characters that
    are not whitespace, in order; no empty string is produced. *)
Fixpoint split (s : string) : list string :=
  match s with
  | EmptyString => []
  | String c s' =>
      if isspace c then split s'
      else match s' with
           | EmptyString => [String c ""]
           | String c' _ =>
               if isspace c' then String c "" :: split s'
               else cons_head c (split s')
           end
  end.

(** [str.lstrip()], [str.rstrip()] and [str.strip()] without argument. *)
Fixpoint lstrip (s : string) : string :=
  match s with
  | EmptyString => ""
  | String c s' => if isspace c then lstrip s' else s
  end.

Fixpoint rstrip (s : string) : string :=
  match s with
  | EmptyString => ""
  | String c s' =>
      match rstrip s' with
      | EmptyString => if isspace c then "" else String c ""
      | r => String c r
      end
  end.

Definition strip (s : string) : string := rstrip (lstrip s).

(** [sep.join(parts)]. *)
Fixpoint join (sep : string) (parts : list string) : string :=
  match parts with
  | [] => ""
  | [p] => p
  | p :: rest => p ++ sep ++ join sep rest
  end.

(** ["%s %s" % (a, b)]. *)
Definition fmt_pair (a b : string) : string := a ++ " " ++ b.

(** ** word_wrap (lines 46-59) *)

(** One iteration of the loop body; the state is [(lines, cur_line)].  The
    source also initialises a [cur_len] that is never read. *)
Definition wrap_step (max_len : Z) (st : list string * string) (word : string)
  : list string * string :=
  let '(lines, cur_line) := st in
  if (Z.of_nat (length (fmt_pair cur_line word)) <? max_len)%Z
  then (lines, strip (fmt_pair cur_line word))
  else ((if truthy cur_line then (lines ++ [cur_line])%list else lines), word).

Definition word_wrap (line : string) (max_len : Z) : list string :=
  let '(lines, cur_line) :=
    fold_left (wrap_step max_len) (split line) ([], "") in
  if truthy cur_line then (lines ++ [cur_line])%list else lines.

(** ** Dictionaries

    A Python [dict] keeps its keys in insertion order, and the report sorts
    the items of one with a stable sort, so a dictionary is an association
    list in insertion order, with at most one entry per key. *)

Definition dict (V : Type) : Type := list (string * V).

Fixpoint dict_get {V : Type} (d : dict V) (k : string) : option V :=
  match d with
  | [] => None
  | (k', v) :: d' => if String.eqb k' k then Some v else dict_get d' k
  end.

(** [d[k] = v]: replaces the value in place, or appends a new key. *)
Fixpoint dict_set {V : Type} (d : dict V) (k : string) (v : V) : dict V :=
  match d with
  | [] => [(k, v)]
  | (k', v') :: d' =>
      if String.eqb k' k then (k', v) :: d' else (k', v') :: dict_set d' k v
  end.

(** [d.setdefault(k, v)], for its effect on [d]. *)
Definition setdefault {V : Type} (d : dict V) (k : string) (v : V) : dict V :=
  match dict_get d k with
  | Some _ => d
  | None => dict_set d k v
  end.

(** [d[k]] where the source reads a key; [dflt] stands for the [KeyError]
    that is never raised: [headers] is a literal with the keys read, a
    formatted fact and the widths keep their keys ([fact_dict_keys],
    [widths_keys]), and [by_cat] is read right after [setdefault]. *)
Definition getitem {V : Type} (dflt : V) (d : dict V) (k : string) : V :=
  match dict_get d k with
  | Some v => v
  | None => dflt
  end.

Definition items {V : Type} (d : dict V) : list (string * V) := d.
Definition values {V : Type} (d : dict V) : list V := map snd d.
Definition keys {V : Type} (d : dict V) : list string := map fst d.

(** ** Dates, times and durations *)

Record date : Type := mkdate { year : nat; month : nat; day : nat }.

Record time : Type :=
  mktime { t_hour : nat; t_minute : nat; t_second : nat; t_microsecond : nat }.

Record datetime : Type := mkdatetime {
  dt_year : nat; dt_month : nat; dt_day : nat;
  hour : nat; minute : nat; second : nat; microsecond : nat }.

(** A [timedelta], as its whole number of microseconds. *)
Definition timedelta : Type := Z.

(** [dt.timedelta()] and [dt.timedelta(0)]. *)
Definition timedelta0 : timedelta := 0%Z.

(** [dt.time()]: midnight. *)
Definition time0 : time := mktime 0 0 0 0.

(** [d.date()]. *)
Definition date_of (d : datetime) : date :=
  mkdate (dt_year d) (dt_month d) (dt_day d).

(** [datetime.combine(d, t)]. *)
Definition combine (d : date) (t : time) : datetime :=
  mkdatetime (year d) (month d) (day d)
             (t_hour t) (t_minute t) (t_second t) (t_microsecond t).

(** [d.replace(hour=h, minute=m, second=s)]: every other field, the
    microseconds included, is kept. *)
Definition replace_hms (d : datetime) (h m s : nat) : datetime :=
  mkdatetime (dt_year d) (dt_month d) (dt_day d) h m s (microsecond d).

Definition date_eqb (a b : date) : bool :=
  Nat.eqb (year a) (year b) && Nat.eqb (month a) (month b)
  && Nat.eqb (day a) (day b).

(** Comparison of naive datetimes: lexicographic on the seven fields. *)
Fixpoint lex_compare (a b : list nat) : comparison :=
  match a, b with
  | x :: a', y :: b' =>
      match Nat.compare x y with
      | Eq => lex_compare a' b'
      | c => c
      end
  | [], [] => Eq
  | [], _ :: _ => Lt
  | _ :: _, [] => Gt
  end.

Definition dt_fields (d : datetime) : list nat :=
  [dt_year d; dt_month d; dt_day d; hour d; minute d; second d; microsecond d].

Definition dt_compare (a b : datetime) : comparison :=
  lex_compare (dt_fields a) (dt_fields b).

(** [a <= b] on datetimes. *)
Definition dt_le (a b : datetime) : Prop := dt_compare a b <> Gt.

(** The ranges of the time-of-day fields that every [datetime] satisfies. *)
Definition time_in_range (d : datetime) : Prop :=
  hour d < 24 /\ minute d < 60 /\ second d < 60.

(** ** Number and timestamp formatting *)

(** [str(n)] for a natural number. *)
Definition str_nat (n : nat) : string := NilZero.string_of_uint (Nat.to_uint n).

(** ["%02d" % n]. *)
Definition pad2 (n : nat) : string :=
  if Nat.ltb n 10 then "0" ++ str_nat n else str_nat n.

(** One [strftime] directive, as the C library under Python prints it: month,
    day, hour, minute and second as two digits, the year in decimal without
    padding (so four digits from the year 1000 on); an unknown directive is
    left as it is. *)
Definition directive (c : ascii) (d : datetime) : string :=
  if Ascii.eqb c "Y" then str_nat (dt_year d)
  else if Ascii.eqb c "m" then pad2 (dt_month d)
  else if Ascii.eqb c "d" then pad2 (dt_day d)
  else if Ascii.eqb c "H" then pad2 (hour d)
  else if Ascii.eqb c "M" then pad2 (minute d)
  else if Ascii.eqb c "S" then pad2 (second d)
  else if Ascii.eqb c "%" then "%"
  else String "%" (String c "").

(** [d.strftime(fmt)]. *)
Fixpoint strftime (d : datetime) (fmt : string) : string :=
  match fmt with
  | EmptyString => ""
  | String c rest =>
      if Ascii.eqb c "%" then
        match rest with
        | String c' rest' => directive c' d ++ strftime d rest'
        | EmptyString => "%"
        end
      else String c (strftime d rest)
  end.

(** Modelled from the spec: [timedelta.format] belongs to
    [hamster.lib.datetime], which is not among the sources.  The spec gives
    the verbose form as hours, the letter h and two digits of minutes:
    "1h05", and "0h00" for the zero duration. *)
Definition format_HhMM (d : timedelta) : string :=
  let total_s := (d / 1000000)%Z in
  let hours := Z.to_nat (total_s / 3600)%Z in
  let minutes := Z.to_nat ((total_s mod 3600) / 60)%Z in
  str_nat hours ++ "h" ++ pad2 minutes.

(** A duration given in minutes. *)
Definition minutes_td (n : Z) : timedelta := (n * 60 * 1000000)%Z.

(** ** Facts *)

(** The attributes of a [Fact] that this file reads.  [delta] is a property of
    the [Fact] class; the field holds the value that one read of the
    attribute yields ([delta_at] below gives it from the clock). *)
Record Fact : Type := mkFact {
  start_time : datetime;
  end_time : option datetime;
  delta : timedelta;
  activity : string;
  category : string;
  tags : list string;
  description : string }.

(** [x or y] on strings. *)
Definition str_or (x y : string) : string := if truthy x then x else y.

(** [x or y] on an optional datetime. *)
Definition dt_or (x : option datetime) (y : datetime) : datetime :=
  match x with
  | Some v => v
  | None => y
  end.

Section Report.

(** [gettext] is the translation lookup [_]; [delta_format] is
    [timedelta.format()]; [now] is what [dt.datetime.now()] returns. *)
Variable gettext : string -> string.
Variable delta_format : timedelta -> string.
Variable now : datetime.

(** *** fact_dict (lines 62-87) *)

Definition fact_dict (fact_data : Fact) (with_date : bool) : dict string :=
  let fact : dict string := [] in
  let fmt := if with_date then "%Y-%m-%d %H:%M" else "%H:%M" in
  let fact := dict_set fact "start" (strftime (start_time fact_data) fmt) in
  let fact :=
    match end_time fact_data with
    | Some e => dict_set fact "end" (strftime e fmt)
    | None =>
        let end_date := now in
        dict_set fact "end" ""
    end in
  let fact := dict_set fact "duration" (delta_format (delta fact_data)) in
  let fact := dict_set fact "activity" (activity fact_data) in
  let fact := dict_set fact "category" (category fact_data) in
  let fact :=
    match tags fact_data with
    | _ :: _ =>
        dict_set fact "tags"
          (join " " (map (fun tag => "#" ++ tag) (tags fact_data)))
    | [] => dict_set fact "tags" ""
    end in
  let fact := dict_set fact "description" (description fact_data) in
  fact.

(** *** HamsterCli._list (lines 312-376) *)

Definition headers : dict string :=
  [("activity", gettext "Activity");
   ("category", gettext "Category");
   ("tags", gettext "Tags");
   ("description", gettext "Description");
   ("start", gettext "Start");
   ("end", gettext "End");
   ("duration", gettext "Duration")].

Definition cols : list string :=
  ["start"; "end"; "duration"; "activity"; "category"].

(** Line 332. *)
Definition init_widths : dict nat :=
  map (fun col => (col, length (getitem "" headers col))) cols.

(** Lines 335-336: the inner loop over the columns for one formatted fact. *)
Definition widen (widths : dict nat) (fact : dict string) : dict nat :=
  fold_left
    (fun widths col =>
       dict_set widths col
         (Nat.max (getitem 0 widths col) (length (getitem "" fact col))))
    cols widths.

(** Lines 332-336. *)
Definition compute_widths (facts : list Fact) (print_with_date : bool)
  : dict nat :=
  fold_left (fun widths fact => widen widths (fact_dict fact print_with_date))
            facts init_widths.

(** [s * n] for a string and a count. *)
Fixpoint str_mul (s : string) (n : nat) : string :=
  match n with
  | O => ""
  | S n' => s ++ str_mul s n'
  end.

(** The replacement field [{col: <len}]: left-aligned, filled with spaces
    up to [len], never truncated. *)
Definition ljust (len : nat) (s : string) : string :=
  s ++ str_mul " " (len - length s).

(** Lines 338-339, applied to a dictionary: [fact_line.format( **d )]. *)
Definition fact_line (widths : dict nat) (d : dict string) : string :=
  join " | "
    (map (fun col => ljust (getitem 0 widths col) (getitem "" d col)) cols).

(** Line 341. *)
Definition row_width (widths : dict nat) : nat :=
  list_sum (map (fun val => val + 3) (values widths)).

(** Lines 345 and 364. *)
Definition separator (widths : dict nat) : string :=
  str_mul "-" (Nat.min (row_width widths) 80).

(** [print(a, b)]: the arguments separated by one space. *)
Definition print_args (args : list string) : string := join " " args.

(** Lines 349-351. *)
Definition add_to_cat (by_cat : dict timedelta) (fact : Fact)
  : dict timedelta :=
  let cat := str_or (category fact) (gettext "Unsorted") in
  let by_cat := setdefault by_cat cat timedelta0 in
  dict_set by_cat cat (getitem timedelta0 by_cat cat + delta fact)%Z.

(** ["    {}".format(line)]. *)
Definition indent (line : string) : string := "    " ++ line.

(** Lines 353-362: what one fact prints. *)
Definition print_fact (widths : dict nat) (print_with_date : bool)
           (fact : Fact) : list string :=
  let pretty_fact := fact_dict fact print_with_date in
  ([fact_line widths pretty_fact]
   ++ (if truthy (getitem "" pretty_fact "description")
       then map indent
                (word_wrap (getitem "" pretty_fact "description") 76)
       else [])
   ++ (if truthy (getitem "" pretty_fact "tags")
       then map indent
                (word_wrap (getitem "" pretty_fact "tags") 76)
       else []))%list.

(** Lines 348-362: the loop body on the state [(by_cat, printed)]. *)
Definition fact_step (widths : dict nat) (print_with_date : bool)
           (st : dict timedelta * list string) (fact : Fact)
  : dict timedelta * list string :=
  let '(by_cat, out) := st in
  (add_to_cat by_cat fact,
   (out ++ print_fact widths print_with_date fact)%list).

(** [sorted(..., key=lambda x: x[1], reverse=True)]: a stable sort into
    descending order of the second component.  [insert_desc] puts an item in
    front of the first item that is not greater, and the items are inserted
    from the last to the first, so equal items keep their order. *)
Fixpoint insert_desc (x : string * timedelta) (l : list (string * timedelta))
  : list (string * timedelta) :=
  match l with
  | [] => [x]
  | y :: l' =>
      if (snd y <=? snd x)%Z then x :: y :: l' else y :: insert_desc x l'
  end.

Definition sorted_desc (l : list (string * timedelta))
  : list (string * timedelta) :=
  fold_right insert_desc [] l.

(** ["{}: {}".format(cat, duration.format())]. *)
Definition cat_entry (cat : string) (duration : timedelta) : string :=
  cat ++ ": " ++ delta_format duration.

(** Lines 368-370: the loop body on the state [(cats, total_duration)]. *)
Definition cat_step (st : list string * timedelta)
           (item : string * timedelta) : list string * timedelta :=
  let '(cats, total_duration) := st in
  let '(cat, duration) := item in
  ((cats ++ [cat_entry cat duration])%list,
   (total_duration + duration)%Z).

(** Lines 317-376, on the facts that the storage returned. *)
Definition _list_print (facts : list Fact) (start_time end_time : datetime)
  : list string :=
  let print_with_date :=
    negb (date_eqb (date_of start_time) (date_of end_time)) in
  let widths := compute_widths facts print_with_date in
  let out := [""; fact_line widths headers; separator widths] in
  let '(by_cat, out) :=
    fold_left (fact_step widths print_with_date) facts ([], out) in
  let out := (out ++ [separator widths])%list in
  let '(cats, total_duration) :=
    fold_left cat_step (sorted_desc (items by_cat)) ([], timedelta0) in
  let out := (out ++ word_wrap (join ", " cats) 80)%list in
  let out :=
    (out ++ [print_args ["Total: "; delta_format total_duration]])%list in
  (out ++ [""])%list.

(** *** The callers (lines 279-285 and 298-309) *)

(** [get_facts] is [self.storage.get_facts]; [Range_parse] is the pair of
    instants that [dt.Range.parse] returns first; [today] is
    [dt.date.today()]. *)
Variable get_facts : datetime -> datetime -> string -> list Fact.
Variable Range_parse : string -> option datetime * option datetime.
Variable today : date.

Definition _list (start_time end_time : datetime) (search : string)
  : list string :=
  let facts := get_facts start_time end_time search in
  _list_print facts start_time end_time.

(** Lines 283-284, repeated at 307-308: the defaults of the range. *)
Definition default_range (parsed : option datetime * option datetime)
  : datetime * datetime :=
  let '(start_time, end_time) := parsed in
  let start_time := dt_or start_time (combine today time0) in
  let end_time := dt_or end_time (replace_hms start_time 23 59 59) in
  (start_time, end_time).

(** The range that [list] passes on (lines 281-284). *)
Definition list_range (times : list string) : datetime * datetime :=
  default_range (Range_parse (join " " times)).

Definition HamsterCli_list (times : list string) : list string :=
  let '(start_time, end_time) := list_range times in
  _list start_time end_time "".

(** The range that [search] passes on (lines 305-308). *)
Definition search_range (args : list string) : datetime * datetime :=
  default_range (Range_parse (join " " (tl args))).

Definition HamsterCli_search (args : list string) : list string :=
  let search := match args with a :: _ => a | [] => "" end in
  let '(start_time, end_time) := search_range args in
  _list start_time end_time search.

End Report.

(** ** Vocabulary of the statements *)

(** A word: a non-empty string without whitespace. *)
Fixpoint no_space (s : string) : bool :=
  match s with
  | EmptyString => true
  | String c s' => negb (isspace c) && no_space s'
  end.

Definition is_word (w : string) : Prop := truthy w = true /\ no_space w = true.

(** Length of a string as a Python integer. *)
Definition len (s : string) : Z := Z.of_nat (length s).

(** A group of words that [word_wrap] may put on one line of width
    [max_len]: the joined words stay under the width, or the group is one
    word. *)
Definition good_group (max_len : Z) (g : list string) : Prop :=
  g <> [] /\ ((len (join " " g) < max_len)%Z \/ exists x, g = [x]).

(** The loop invariant of [word_wrap] after the words [done]: the finished
    lines and the current line are groups of consecutive words, joined by
    single spaces, that together are [done]. *)
Definition wrap_state_ok (max_len : Z) (st : list string * string)
           (done : list string) : Prop :=
  exists gs g,
    st = (map (join " ") gs, join " " g)
    /\ (List.concat gs ++ g)%list = done
    /\ Forall (good_group max_len) gs
    /\ (g = [] \/ good_group max_len g).

(** A string made of dashes only. *)
Fixpoint all_dashes (s : string) : bool :=
  match s with
  | EmptyString => true
  | String c s' => Ascii.eqb c "-" && all_dashes s'
  end.

(** The key under which a fact is accumulated (line 349). *)
Definition label (gettext : string -> string) (fact : Fact) : string :=
  str_or (category fact) (gettext "Unsorted").

(** The dictionary [by_cat] after the loop over the facts. *)
Definition categories_of (gettext : string -> string) (facts : list Fact)
  : dict timedelta :=
  fold_left (add_to_cat gettext) facts [].

(** Sum of a list of durations. *)
Definition sum_td (l : list timedelta) : timedelta := fold_right Z.add 0%Z l.

(** Total duration of the facts accumulated under the key [c]. *)
Definition total_of (gettext : string -> string) (c : string)
           (facts : list Fact) : timedelta :=
  sum_td (map delta (filter (fun f => String.eqb (label gettext f) c) facts)).

(** The distinct elements of a list, in the order of their first
    occurrence. *)
Fixpoint first_seen (l : list string) : list string :=
  match l with
  | [] => []
  | k :: l' => k :: filter (fun k' => negb (String.eqb k' k)) (first_seen l')
  end.

(** The table part of the report: blank line, header, separator, the lines
    of every fact, separator. *)
Definition table_lines (gettext : string -> string)
           (delta_format : timedelta -> string) (now : datetime)
           (facts : list Fact) (print_with_date : bool) : list string :=
  let widths := compute_widths gettext delta_format now facts print_with_date in
  ([""; fact_line widths (headers gettext); separator widths]
   ++ flat_map (print_fact delta_format now widths print_with_date) facts
   ++ [separator widths])%list.

(** The summary part of the report: the wrapped category entries, the total
    line and a blank line. *)
Definition summary_lines (gettext : string -> string)
           (delta_format : timedelta -> string) (facts : list Fact)
  : list string :=
  let sorted := sorted_desc (items (categories_of gettext facts)) in
  (word_wrap
     (join ", " (map (fun it => cat_entry delta_format (fst it) (snd it)) sorted))
     80
   ++ [print_args ["Total: "; delta_format (sum_td (map snd sorted))]; ""])%list.

(** The three facts of the specification's example: 90 and 30 minutes of
    "Work" and 15 minutes without category. *)
Definition example_facts : list Fact :=
  [mkFact (mkdatetime 2012 8 1 9 0 0 0) (Some (mkdatetime 2012 8 1 10 30 0 0))
          (minutes_td 90) "coding" "Work" [] "";
   mkFact (mkdatetime 2012 8 1 10 30 0 0) (Some (mkdatetime 2012 8 1 11 0 0 0))
          (minutes_td 30) "review" "Work" [] "";
   mkFact (mkdatetime 2012 8 1 11 0 0 0) (Some (mkdatetime 2012 8 1 11 15 0 0))
          (minutes_td 15) "tea" "" [] ""].

(** ** The other commands of HamsterCli *)

(** [str.lower] on one character, for the code points below 256: the ASCII
    capitals and the capitals of Latin-1 (all of 192-222 but the
    multiplication sign 215) move up by 32. *)
Definition lower_char (c : ascii) : ascii :=
  let n := nat_of_ascii c in
  if (Nat.leb 65 n && Nat.leb n 90)
     || (Nat.leb 192 n && Nat.leb n 222 && negb (Nat.eqb n 215))
  then ascii_of_nat (n + 32)
  else c.

Fixpoint lower (s : string) : string :=
  match s with
  | EmptyString => ""
  | String c s' => String (lower_char c) (lower s')
  end.

(** [s.startswith(p)]. *)
Definition startswith (s p : string) : bool := String.prefix p s.

(** [c in s] for a one-character string [c]. *)
Fixpoint contains_char (c : ascii) (s : string) : bool :=
  match s with
  | EmptyString => false
  | String x s' => Ascii.eqb x c || contains_char c s'
  end.

(** [s.split(sep)] for a one-character separator: the pieces between the
    separators, empty pieces included; never an empty list. *)
Fixpoint split_sep (sep : ascii) (s : string) : list string :=
  match s with
  | EmptyString => [""]
  | String c s' =>
      if Ascii.eqb c sep then "" :: split_sep sep s'
      else match split_sep sep s' with
           | piece :: pieces => String c piece :: pieces
           | [] => [String c ""]
           end
  end.

(** Number of occurrences of a character. *)
Fixpoint count_char (c : ascii) (s : string) : nat :=
  match s with
  | EmptyString => 0
  | String x s' => (if Ascii.eqb x c then 1 else 0) + count_char c s'
  end.

(** ["{}@{}".format(a, b)]. *)
Definition at_pair (a b : string) : string := a ++ "@" ++ b.

(** The newline character as a string. *)
Definition newline : string := String "010"%char "".

(** The exception that the commands below can raise, and the outcome of a
    command: what it printed, or the exception raised before it printed
    anything. *)
Inductive exn : Type := ValueError.

Inductive result (A : Type) : Type :=
| Ok (a : A)
| Raise (e : exn).

Arguments Ok {A} a.
Arguments Raise {A} e.

(** The rows that the storage returns: an activity is read through its keys
    'name' and 'category', a category through its key 'name'. *)
Record ActivityRow : Type :=
  mkActivityRow { act_name : string; act_category : string }.

Record CategoryRow : Type := mkCategoryRow { cat_name : string }.

(** [l[-1]] when the list is not empty. *)
Fixpoint last_item {A : Type} (l : list A) : option A :=
  match l with
  | [] => None
  | [x] => Some x
  | _ :: l' => last_item l'
  end.

Section Commands.

(** [get_categories], [get_activities] and [get_todays_facts] are the
    methods of [self.storage], and [get_facts_range] is its [get_facts]
    called with a start and an end only; [fact_str] is [str(fact)] and
    [delta_format_HHMM] is [timedelta.format(fmt="HH:MM")], both of the
    library; [Range_parse] and [today] are as above. *)
Variable gettext : string -> string.
Variable get_categories : list CategoryRow.
Variable get_activities : string -> list ActivityRow.
Variable get_todays_facts : list Fact.
Variable fact_str : Fact -> string.
Variable delta_format_HHMM : timedelta -> string.
Variable get_facts_range : datetime -> datetime -> list Fact.
Variable Range_parse : string -> option datetime * option datetime.
Variable today : date.

(** *** _activities (lines 253-264) *)

(** Lines 258-259: what one category prints. *)
Definition category_lines (activity category : string) (cat : CategoryRow)
  : list string :=
  if negb (truthy category)
     || startswith (lower (cat_name cat)) (lower category)
  then [at_pair activity (cat_name cat)]
  else [].

(** Lines 262-264: what one activity prints. *)
Definition activity_lines (activity : ActivityRow) : list string :=
  (act_name activity
   :: (if truthy (act_category activity)
       then [at_pair (act_name activity) (act_category activity)]
       else []))%list.

(** The unpacking [activity, category = search.split("@")] raises
    [ValueError] unless the list has two elements. *)
Definition _activities (search : string) : result (list string) :=
  if contains_char "@" search then
    match split_sep "@" search with
    | [activity; category] =>
        Ok (flat_map (category_lines activity category) get_categories)
    | _ => Raise ValueError
    end
  else Ok (flat_map activity_lines (get_activities search)).

(** *** activities and categories (lines 267-276) *)

Definition activities (args : list string) : list string :=
  let search := match args with a :: _ => a | [] => "" end in
  map (fun activity => at_pair (act_name activity) (act_category activity))
      (get_activities search).

Definition categories : list string := map cat_name get_categories.

(** *** assist (lines 202-211); [argv_last] is [sys.argv[-1]] *)

Definition assist (args : list string) (argv_last : string)
  : result (list string) :=
  let assist_command := match args with a :: _ => a | [] => "" end in
  if String.eqb assist_command "start" then _activities argv_last
  else if String.eqb assist_command "export" then
    let formats := split "html tsv xml ical" in
    let chosen := argv_last in
    let formats :=
      filter (fun f => negb (truthy chosen) || startswith f chosen) formats in
    Ok [join newline formats]
  else Ok [].

(** *** current (lines 288-295) *)

Definition current : list string :=
  let facts := get_todays_facts in
  match last_item facts with
  | Some last_fact =>
      match end_time last_fact with
      | None =>
          [fmt_pair (strip (fact_str last_fact))
                    (delta_format_HHMM (delta last_fact))]
      | Some _ => [gettext "No activity"]
      end
  | None => [gettext "No activity"]
  end.

(** *** export (lines 239-250): the arguments given to [reports.simple] *)

Definition HamsterCli_export (args : list string)
  : list Fact * date * date * string :=
  let export_format := match args with a :: _ => a | [] => "html" end in
  let '(start_time, end_time) :=
    default_range today (Range_parse (join " " (tl args))) in
  let facts := get_facts_range start_time end_time in
  (facts, date_of start_time, date_of end_time, export_format).

End Commands.

(** ** Vocabulary of the further statements *)

(** Between two consecutive groups of words, the first word of the second
    would not have fitted behind the first group. *)
Fixpoint forced_groups (max_len : Z) (gs : list (list string)) : Prop :=
  match gs with
  | g1 :: rest =>
      match rest with
      | g2 :: _ =>
          (max_len <= len (join " " g1) + 1 + len (hd "" g2))%Z
          /\ forced_groups max_len rest
      | [] => True
      end
  | [] => True
  end.

(** The same between two consecutive lines. *)
Fixpoint breaks_forced (max_len : Z) (lines : list string) : Prop :=
  match lines with
  | l1 :: rest =>
      match rest with
      | l2 :: _ =>
          (max_len <= len l1 + 1 + len (hd "" (split l2)))%Z
          /\ breaks_forced max_len rest
      | [] => True
      end
  | [] => True
  end.

(** The loop invariant of [word_wrap] with the forced breaks. *)
Definition wrap_state_greedy (max_len : Z) (st : list string * string)
           (done : list string) : Prop :=
  exists gs g,
    st = (map (join " ") gs, join " " g)
    /\ (List.concat gs ++ g)%list = done
    /\ Forall (fun g' => g' <> []) gs
    /\ (g = [] -> gs = [])
    /\ forced_groups max_len (gs ++ [g])%list.

(** ** Elapsed time and the cells of a row *)

(** [d.toordinal()]: the days since the day before 0001-01-01 in the
    proleptic Gregorian calendar. *)
Definition is_leap (y : Z) : bool :=
  ((y mod 4 =? 0) && (negb (y mod 100 =? 0) || (y mod 400 =? 0)))%Z.

Definition days_in_month (y : Z) (m : nat) : Z :=
  match m with
  | 2 => if is_leap y then 29%Z else 28%Z
  | 4 | 6 | 9 | 11 => 30%Z
  | _ => 31%Z
  end.

Definition days_before_year (y : Z) : Z :=
  let y1 := (y - 1)%Z in (y1 * 365 + y1 / 4 - y1 / 100 + y1 / 400)%Z.

Definition days_before_month (y : Z) (m : nat) : Z :=
  fold_right Z.add 0%Z (map (days_in_month y) (seq 1 (m - 1))).

Definition toordinal (d : datetime) : Z :=
  let y := Z.of_nat (dt_year d) in
  (days_before_year y + days_before_month y (dt_month d)
   + Z.of_nat (dt_day d))%Z.

(** An instant as the microseconds since the start of day 0. *)
Definition to_microseconds (d : datetime) : Z :=
  ((((toordinal d * 24 + Z.of_nat (hour d)) * 60 + Z.of_nat (minute d)) * 60
    + Z.of_nat (second d)) * 1000000 + Z.of_nat (microsecond d))%Z.

(** [a - b] on datetimes. *)
Definition dt_sub (a b : datetime) : timedelta :=
  (to_microseconds a - to_microseconds b)%Z.

(** Modelled from the spec: the property [delta] of the [Fact] class, which
    is not among the sources.  The spec gives it as [end_time - start_time]
    when [end_time] is present, and else as the time elapsed since
    [start_time] at the moment [now] of the read. *)
Definition delta_at (now : datetime) (start : datetime)
           (end_ : option datetime) : timedelta :=
  dt_sub (dt_or end_ now) start.

(** The attribute values of a stored fact when they are read at the moment
    [now]. *)
Definition observed (f : Fact) (now : datetime) : Fact :=
  mkFact (start_time f) (end_time f)
         (delta_at now (start_time f) (end_time f))
         (activity f) (category f) (tags f) (description f).

(** A timestamp as the report shows it: hours and minutes, behind the date
    when [with_date]. *)
Definition stamp (with_date : bool) (d : datetime) : string :=
  if with_date
  then str_nat (dt_year d) ++ "-" ++ pad2 (dt_month d) ++ "-"
       ++ pad2 (dt_day d) ++ " " ++ pad2 (hour d) ++ ":" ++ pad2 (minute d)
  else pad2 (hour d) ++ ":" ++ pad2 (minute d).

(** The end cell of a fact: empty while the fact is running. *)
Definition end_cell_text (with_date : bool) (f : Fact) : string :=
  match end_time f with
  | None => ""
  | Some e => stamp with_date e
  end.

(** The row of a fact in the table, from its five cells. *)
Definition row_text (delta_format : timedelta -> string) (widths : dict nat)
           (with_date : bool) (f : Fact) : string :=
  join " | "
    [ljust (getitem 0 widths "start") (stamp with_date (start_time f));
     ljust (getitem 0 widths "end") (end_cell_text with_date f);
     ljust (getitem 0 widths "duration") (delta_format (delta f));
     ljust (getitem 0 widths "activity") (activity f);
     ljust (getitem 0 widths "category") (category f)].

(** The lines under the row of a fact: its wrapped description and its
    wrapped tags. *)
Definition tags_text (f : Fact) : string :=
  join " " (map (fun tag => "#" ++ tag) (tags f)).

Definition detail_lines (f : Fact) : list string :=
  ((if truthy (description f)
    then map indent (word_wrap (description f) 76) else [])
   ++ (if truthy (tags_text f)
       then map indent (word_wrap (tags_text f) 76) else []))%list.

(** The entries of a dictionary other than 'duration'. *)
Definition without_duration (d : dict string) : dict string :=
  filter (fun kv => negb (String.eqb (fst kv) "duration")) d.

(** * Properties *)

Example word_wrap_ex1 :
  word_wrap "the quick  brown fox jumps" 10 = ["the quick"; "brown fox"; "jumps"].
Proof. reflexivity. Qed.

Example word_wrap_ex2 :
  word_wrap " a  hippopotamus b " 5 = ["a"; "hippopotamus"; "b"].
Proof. reflexivity. Qed.

Example word_wrap_ex3 : word_wrap "abcd ef" 5 = ["abcd"; "ef"].
Proof. reflexivity. Qed.

Example format_ex : map format_HhMM [minutes_td 65; minutes_td 0; minutes_td 135]
                    = ["1h05"; "0h00"; "2h15"].
Proof. reflexivity. Qed.

Example strftime_ex :
  strftime (mkdatetime 2012 8 1 9 5 0 0) "%Y-%m-%d %H:%M" = "2012-08-01 09:05".
Proof. reflexivity. Qed.

(** ** Strings *)

Lemma length_append (a b : string) : length (a ++ b) = length a + length b.
Proof. induction a as [|c a IH]; simpl; [reflexivity | now rewrite IH]. Qed.

Lemma append_assoc (a b c : string) : (a ++ b) ++ c = a ++ (b ++ c).
Proof. induction a as [|x a IH]; simpl; [reflexivity | now rewrite IH]. Qed.

Lemma append_empty_r (a : string) : a ++ "" = a.
Proof. induction a as [|x a IH]; simpl; [reflexivity | now rewrite IH]. Qed.

Lemma truthy_true (s : string) : truthy s = true <-> s <> "".
Proof. destruct s; simpl; split; congruence. Qed.

Lemma truthy_false (s : string) : truthy s = false <-> s = "".
Proof. destruct s; simpl; split; congruence. Qed.

Lemma space_isspace : isspace " " = true.
Proof. reflexivity. Qed.

Lemma is_word_cons (c : ascii) (w : string) :
  is_word (String c w) <-> isspace c = false /\ no_space w = true.
Proof.
  unfold is_word; simpl. rewrite andb_true_iff, negb_true_iff. tauto.
Qed.

Lemma is_word_tail (c c' : ascii) (w : string) :
  is_word (String c (String c' w)) -> is_word (String c' w).
Proof.
  rewrite !is_word_cons; simpl. rewrite andb_true_iff, negb_true_iff. tauto.
Qed.

(** *** split *)

Lemma split_cons2 (x y : ascii) (s : string) :
  split (String x (String y s)) =
  if isspace x then split (String y s)
  else if isspace y then String x "" :: split (String y s)
       else cons_head x (split (String y s)).
Proof. reflexivity. Qed.

Lemma split_word_then_space (w : string) (c : ascii) (rest : string) :
  is_word w -> isspace c = true ->
  split (w ++ String c rest) = w :: split rest.
Proof.
  induction w as [|x w IH]; intros Hw Hc.
  - destruct Hw as [Hw _]; discriminate.
  - destruct w as [|y w].
    + apply is_word_cons in Hw as [Hx _]. simpl. now rewrite Hx, Hc.
    + pose proof (is_word_tail _ _ _ Hw) as Hw'.
      pose proof (proj1 (is_word_cons _ _) Hw') as [Hy _].
      apply is_word_cons in Hw as [Hx _].
      specialize (IH Hw' Hc). cbn [append] in IH |- *.
      now rewrite split_cons2, Hx, Hy, IH.
Qed.

Lemma split_word (w : string) : is_word w -> split w = [w].
Proof.
  induction w as [|x w IH]; intros Hw.
  - destruct Hw as [Hw _]; discriminate.
  - destruct w as [|y w].
    + apply is_word_cons in Hw as [Hx _]. simpl. now rewrite Hx.
    + pose proof (is_word_tail _ _ _ Hw) as Hw'.
      pose proof (proj1 (is_word_cons _ _) Hw') as [Hy _].
      apply is_word_cons in Hw as [Hx _].
      specialize (IH Hw').
      now rewrite split_cons2, Hx, Hy, IH.
Qed.

Lemma cons_head_words (c : ascii) (ws : list string) :
  isspace c = false -> Forall is_word ws -> Forall is_word (cons_head c ws).
Proof.
  intros Hc Hws. destruct ws as [|w ws]; simpl.
  - constructor; [now apply is_word_cons | constructor].
  - inversion Hws as [|? ? [_ Hw] Hrest]; subst.
    constructor; [now apply is_word_cons | assumption].
Qed.

(** Every string that [split] returns is a word. *)
Lemma split_words (s : string) : Forall is_word (split s).
Proof.
  induction s as [|c s IH]; [constructor|].
  simpl. destruct (isspace c) eqn:Hc; [assumption|].
  destruct s as [|c' s'].
  - constructor; [now apply is_word_cons | constructor].
  - destruct (isspace c') eqn:Hc'.
    + constructor; [now apply is_word_cons | assumption].
    + now apply cons_head_words.
Qed.

(** *** join *)

Lemma join_cons (sep w : string) (g : list string) :
  g <> [] -> join sep (w :: g) = w ++ sep ++ join sep g.
Proof. destruct g; [congruence | reflexivity]. Qed.

Lemma join_app (sep : string) (a b : list string) :
  a <> [] -> b <> [] -> join sep (a ++ b)%list = join sep a ++ sep ++ join sep b.
Proof.
  induction a as [|x a IH]; intros Ha Hb; [congruence|].
  destruct a as [|y a].
  - simpl app. now rewrite join_cons.
  - change ((x :: y :: a) ++ b)%list with (x :: ((y :: a) ++ b))%list.
    rewrite join_cons by (simpl; congruence).
    rewrite IH by congruence.
    rewrite (join_cons sep x (y :: a)) by congruence.
    now rewrite !append_assoc.
Qed.

Lemma split_join (ws : list string) :
  Forall is_word ws -> split (join " " ws) = ws.
Proof.
  induction 1 as [|w ws Hw Hws IH]; [reflexivity|].
  destruct ws as [|w' ws].
  - now apply split_word.
  - rewrite join_cons by congruence.
    change (w ++ " " ++ join " " (w' :: ws))
      with (w ++ String " " (join " " (w' :: ws))).
    rewrite split_word_then_space by (assumption || reflexivity).
    now rewrite IH.
Qed.

(** *** strip *)

Lemma rstrip_app (a b : string) :
  rstrip b = b -> b <> "" -> rstrip (a ++ b) = a ++ b.
Proof.
  intros Hb Hne. induction a as [|c a IH]; [assumption|].
  simpl. rewrite IH.
  destruct (a ++ b) eqn:E; [|reflexivity].
  destruct a; simpl in E; [congruence | discriminate].
Qed.

Lemma rstrip_word (w : string) : is_word w -> rstrip w = w.
Proof.
  induction w as [|c w IH]; intros Hw; [reflexivity|].
  destruct w as [|c' w].
  - apply is_word_cons in Hw as [Hc _]. simpl. now rewrite Hc.
  - specialize (IH (is_word_tail _ _ _ Hw)).
    change (rstrip (String c (String c' w)))
      with (match rstrip (String c' w) with
            | EmptyString => if isspace c then "" else String c ""
            | r => String c r
            end).
    now rewrite IH.
Qed.

Lemma is_word_cons_inv (w : string) :
  is_word w -> exists c w', w = String c w' /\ isspace c = false.
Proof.
  destruct w as [|c w]; intros Hw.
  - destruct Hw; discriminate.
  - apply is_word_cons in Hw as [Hc _]. eauto.
Qed.

Lemma lstrip_word_app (w s : string) : is_word w -> lstrip (w ++ s) = w ++ s.
Proof.
  destruct w as [|c w]; intros Hw.
  - destruct Hw; discriminate.
  - apply is_word_cons in Hw as [Hc _]. simpl. now rewrite Hc.
Qed.

Lemma word_nonempty (w : string) : is_word w -> w <> "".
Proof. intros [Hw _]. now apply truthy_true. Qed.

Lemma join_words_rstrip (g : list string) :
  g <> [] -> Forall is_word g ->
  rstrip (join " " g) = join " " g /\ join " " g <> "".
Proof.
  intros Hg Hws. induction Hws as [|w g Hw Hws IH]; [congruence|].
  destruct g as [|w' g].
  - simpl. split; [now apply rstrip_word | now apply word_nonempty].
  - destruct IH as [IH1 IH2]; [congruence|].
    rewrite join_cons by congruence. split.
    + apply rstrip_app.
      * now apply rstrip_app.
      * discriminate.
    + pose proof (word_nonempty _ Hw). destruct w; [congruence | discriminate].
Qed.

(** A line of words joined by single spaces has no whitespace to strip. *)
Lemma strip_join (g : list string) :
  g <> [] -> Forall is_word g -> strip (join " " g) = join " " g.
Proof.
  intros Hg Hws. unfold strip.
  assert (lstrip (join " " g) = join " " g) as ->.
  { destruct g as [|w g]; [congruence|].
    inversion Hws as [|? ? Hw _]; subst.
    destruct g as [|w' g].
    - simpl join. rewrite <- (append_empty_r w). now apply lstrip_word_app.
    - rewrite join_cons by congruence. now apply lstrip_word_app. }
  now apply join_words_rstrip.
Qed.

Lemma strip_first_word (w : string) : is_word w -> strip (fmt_pair "" w) = w.
Proof.
  intros Hw. unfold strip, fmt_pair. simpl.
  apply is_word_cons_inv in Hw as Hw'. destruct Hw' as (c & w' & -> & Hc).
  simpl. rewrite Hc. now apply rstrip_word.
Qed.

(** ** word_wrap *)

Lemma wrap_step_ok (max_len : Z) (st : list string * string)
      (done : list string) (x : string) :
  Forall is_word done -> is_word x ->
  wrap_state_ok max_len st done ->
  wrap_state_ok max_len (wrap_step max_len st x) (done ++ [x])%list.
Proof.
  intros Hdone Hx (gs & g & -> & Hcat & Hgs & Hg).
  assert (Forall is_word g) as Hgw.
  { rewrite <- Hcat in Hdone. now apply Forall_app in Hdone. }
  unfold wrap_step.
  destruct (Z.of_nat (length (fmt_pair (join " " g) x)) <? max_len)%Z eqn:Hlt.
  - (* the word joins the current line *)
    exists gs, (g ++ [x])%list. destruct g as [|w g].
    + simpl join. rewrite strip_first_word by assumption.
      repeat split.
      * now rewrite <- Hcat, <- app_assoc.
      * assumption.
      * right. simpl. split; [discriminate | right; eauto].
    + assert (fmt_pair (join " " (w :: g)) x = join " " ((w :: g) ++ [x])%list)
        as E by (rewrite join_app by congruence; reflexivity).
      rewrite E in *. rewrite strip_join.
      * repeat split.
        -- now rewrite <- Hcat, <- app_assoc.
        -- assumption.
        -- right. split; [discriminate|]. left. now apply Z.ltb_lt.
      * discriminate.
      * apply Forall_app. split; [assumption | now constructor].
  - (* the current line is flushed and the word starts a new one *)
    destruct g as [|w g].
    + exists gs, [x]. simpl. repeat split.
      * now rewrite <- Hcat, app_nil_r.
      * assumption.
      * right. split; [discriminate | right; eauto].
    + exists (gs ++ [w :: g])%list, [x].
      assert (truthy (join " " (w :: g)) = true) as ->.
      { apply truthy_true. apply join_words_rstrip; [discriminate | assumption]. }
      rewrite map_app. repeat split.
      * rewrite List.concat_app. simpl. now rewrite app_nil_r, <- Hcat.
      * apply Forall_app. split; [assumption|].
        constructor; [|constructor]. destruct Hg as [Hg | Hg]; [discriminate | assumption].
      * right. split; [discriminate | right; eauto].
Qed.

Lemma wrap_fold_ok (max_len : Z) (ws : list string) :
  forall (st : list string * string) (done : list string),
    Forall is_word ws -> Forall is_word done ->
    wrap_state_ok max_len st done ->
    wrap_state_ok max_len (fold_left (wrap_step max_len) ws st) (done ++ ws)%list.
Proof.
  induction ws as [|x ws IH]; intros st done Hws Hdone Hst.
  - now rewrite app_nil_r.
  - inversion Hws as [|? ? Hx Hws']; subst. simpl.
    replace (done ++ x :: ws)%list with ((done ++ [x]) ++ ws)%list
      by (now rewrite <- app_assoc).
    apply IH.
    + assumption.
    + apply Forall_app. split; [assumption | now constructor].
    + now apply wrap_step_ok.
Qed.

(** The lines of [word_wrap] are the words of the input, cut into
    consecutive groups that each fit the width or hold one word. *)
Lemma word_wrap_groups (line : string) (max_len : Z) :
  exists gs,
    word_wrap line max_len = map (join " ") gs
    /\ List.concat gs = split line
    /\ Forall (good_group max_len) gs.
Proof.
  pose proof (wrap_fold_ok max_len (split line) ([], "") []
                (split_words line) (Forall_nil _)) as H.
  destruct H as (gs & g & E & Hcat & Hgs & Hg).
  { exists [], []. repeat split; [constructor | now left]. }
  unfold word_wrap. rewrite E. simpl in Hcat.
  destruct g as [|w g].
  - exists gs. simpl. rewrite app_nil_r in Hcat. auto.
  - exists (gs ++ [w :: g])%list.
    assert (Forall is_word (w :: g)) as Hgw.
    { pose proof (split_words line) as Hs. rewrite <- Hcat in Hs.
      now apply Forall_app in Hs. }
    assert (truthy (join " " (w :: g)) = true) as ->.
    { apply truthy_true. apply join_words_rstrip; [discriminate | assumption]. }
    rewrite map_app. repeat split.
    + rewrite List.concat_app. simpl. now rewrite app_nil_r.
    + apply Forall_app. split; [assumption|].
      constructor; [|constructor]. destruct Hg as [Hg | Hg]; [discriminate | assumption].
Qed.

Lemma join_length_ge (sep : string) (g : list string) (x : string) :
  In x g -> length x <= length (join sep g).
Proof.
  induction g as [|w g IH]; intros Hin; [contradiction|].
  destruct g as [|w' g].
  - destruct Hin as [-> | []]. simpl. lia.
  - rewrite join_cons by congruence. rewrite !length_append.
    destruct Hin as [-> | Hin]; [lia|]. specialize (IH Hin). lia.
Qed.

Lemma join_concat (gs : list (list string)) :
  Forall (fun g => g <> []) gs ->
  join " " (map (join " ") gs) = join " " (List.concat gs).
Proof.
  induction 1 as [|g gs Hg Hgs IH]; [reflexivity|].
  destruct gs as [|g' gs].
  - simpl. now rewrite app_nil_r.
  - change (map (join " ") (g :: g' :: gs))
      with (join " " g :: map (join " ") (g' :: gs)).
    rewrite join_cons by (simpl; congruence). rewrite IH.
    change (List.concat (g :: g' :: gs))
      with (g ++ List.concat (g' :: gs))%list.
    rewrite join_app; [reflexivity | assumption |].
    inversion Hgs as [|? ? Hg' _]; subst. simpl.
    destruct g'; [congruence | discriminate].
Qed.

Lemma good_groups_nonempty (max_len : Z) (gs : list (list string)) :
  Forall (good_group max_len) gs -> Forall (fun g => g <> []) gs.
Proof. apply Forall_impl. now intros g [Hg _]. Qed.

(** C5: every line that [word_wrap] produces is shorter than the width,
    unless it is a single word of the input that is itself at least as long
    as the width; and every such long word of the input is a line of its
    own, unchanged. *)
Theorem word_wrap_line_width (line : string) (max_len : Z) :
  Forall (fun l => (len l < max_len)%Z
                   \/ (In l (split line) /\ (max_len <= len l)%Z))
         (word_wrap line max_len)
  /\ incl (filter (fun x => (max_len <=? len x)%Z) (split line))
          (word_wrap line max_len).
Proof.
  destruct (word_wrap_groups line max_len) as (gs & -> & Hcat & Hgs).
  split.
  - apply Forall_forall. intros l Hl.
    apply in_map_iff in Hl as (g & <- & Hg).
    pose proof (proj1 (Forall_forall _ _) Hgs g Hg) as [_ [Hshort | [x ->]]].
    + now left.
    + simpl. destruct (Z.lt_ge_cases (len x) max_len) as [Hlt | Hge].
      * now left.
      * right. split; [|assumption].
        rewrite <- Hcat. apply in_concat. exists [x]. split; [assumption | now left].
  - intros x Hx. apply filter_In in Hx as [Hx Hlen].
    apply Z.leb_le in Hlen.
    rewrite <- Hcat in Hx. apply in_concat in Hx as (g & Hg & Hxg).
    pose proof (proj1 (Forall_forall _ _) Hgs g Hg) as [_ [Hshort | [y ->]]].
    + pose proof (join_length_ge " " g x Hxg). unfold len in *. lia.
    + destruct Hxg as [-> | []].
      apply in_map_iff. exists [x]. split; [reflexivity | assumption].
Qed.

Example word_wrap_line_width_ex :
  word_wrap "ab hippopotamus cd ef" 6 = ["ab"; "hippopotamus"; "cd ef"].
Proof. reflexivity. Qed.

(** C6: joining the lines of [word_wrap] with single spaces and splitting the
    result on whitespace gives back the words of the input, in order; the
    empty input gives no line at all. *)
Theorem word_wrap_preserves_words (line : string) (max_len : Z) :
  split (join " " (word_wrap line max_len)) = split line
  /\ word_wrap "" max_len = [].
Proof.
  split; [|reflexivity].
  destruct (word_wrap_groups line max_len) as (gs & -> & Hcat & Hgs).
  rewrite join_concat by (now apply good_groups_nonempty with max_len).
  rewrite Hcat. apply split_join, split_words.
Qed.

(** ** Range defaulting *)

Section RangeDefaults.

Variable Range_parse : string -> option datetime * option datetime.
Variable today : date.

(** The range that the defaults give for a parsed start [start] and no
    parsed end. *)
Let resolved (start : option datetime) : datetime * datetime :=
  match start with
  | None =>
      (mkdatetime (year today) (month today) (day today) 0 0 0 0,
       mkdatetime (year today) (month today) (day today) 23 59 59 0)
  | Some s =>
      (s, mkdatetime (dt_year s) (dt_month s) (dt_day s) 23 59 59
                     (microsecond s))
  end.

(** C1: when the parser returns no instant at all, [list] and [search]
    use today from 00:00:00 to 23:59:59; when it returns a start only,
    that start is kept and the end is the start's calendar day at
    23:59:59. *)
Theorem range_defaulting (tokens : list string) (term : string)
        (start : option datetime) :
  Range_parse (join " " tokens) = (start, None) ->
  list_range Range_parse today tokens = resolved start
  /\ search_range Range_parse today (term :: tokens) = resolved start.
Proof.
  intros Hparse. unfold list_range, search_range. simpl tl.
  rewrite Hparse. destruct start; split; reflexivity.
Qed.

End RangeDefaults.

Lemma range_defaulting_witness :
  (fun _ : string => (@None datetime, @None datetime)) (join " " ["x"])
  = (None, None)
  /\ list_range (fun _ => (None, None)) (mkdate 2012 8 1) ["x"]
     = (mkdatetime 2012 8 1 0 0 0 0, mkdatetime 2012 8 1 23 59 59 0)
  /\ search_range (fun _ => (None, None)) (mkdate 2012 8 1) ["pancakes"; "x"]
     = (mkdatetime 2012 8 1 0 0 0 0, mkdatetime 2012 8 1 23 59 59 0).
Proof.
  split; [reflexivity|].
  apply (range_defaulting (fun _ => (None, None)) (mkdate 2012 8 1)
                          ["x"] "pancakes" None).
  reflexivity.
Defined.

Lemma lex_compare_refl (l : list nat) : lex_compare l l = Eq.
Proof.
  induction l as [|x l IH]; [reflexivity|].
  simpl. now rewrite Nat.compare_refl.
Qed.

(** Replacing the time of day by 23:59:59 never moves an instant back. *)
Lemma replace_end_of_day_le (s : datetime) :
  time_in_range s -> dt_le s (replace_hms s 23 59 59).
Proof.
  intros (Hh & Hm & Hs). unfold dt_le, dt_compare, dt_fields, replace_hms.
  simpl. rewrite !Nat.compare_refl.
  destruct (Nat.compare_spec (hour s) 23) as [Eh | Lh | Gh];
    [|discriminate | lia].
  destruct (Nat.compare_spec (minute s) 59) as [Em | Lm | Gm];
    [|discriminate | lia].
  destruct (Nat.compare_spec (second s) 59) as [Es | Ls | Gs];
    [|discriminate | lia].
  discriminate.
Qed.

(** C2: the range that the defaults give when at most a start was parsed has
    its start no later than its end. *)
Theorem defaulted_range_ordered (today : date) (start : option datetime) :
  (forall s, start = Some s -> time_in_range s) ->
  dt_le (fst (default_range today (start, None)))
        (snd (default_range today (start, None))).
Proof.
  intros Hrange. destruct start as [s|]; simpl.
  - now apply replace_end_of_day_le, Hrange.
  - apply replace_end_of_day_le. unfold time_in_range; simpl. lia.
Qed.

Lemma defaulted_range_ordered_witness :
  (forall s, Some (mkdatetime 2012 8 1 23 59 59 500) = Some s ->
             time_in_range s)
  /\ dt_le (fst (default_range (mkdate 2020 1 2)
                  (Some (mkdatetime 2012 8 1 23 59 59 500), None)))
           (snd (default_range (mkdate 2020 1 2)
                  (Some (mkdatetime 2012 8 1 23 59 59 500), None))).
Proof.
  assert (forall s, Some (mkdatetime 2012 8 1 23 59 59 500) = Some s ->
                    time_in_range s) as H.
  { intros s E. injection E as <-. unfold time_in_range; simpl. lia. }
  split; [exact H|].
  exact (defaulted_range_ordered (mkdate 2020 1 2)
           (Some (mkdatetime 2012 8 1 23 59 59 500)) H).
Defined.

(** ** fact_dict *)

Lemma strftime_time (d : datetime) :
  strftime d "%H:%M" = pad2 (hour d) ++ ":" ++ pad2 (minute d).
Proof. cbn. now rewrite append_empty_r. Qed.

Lemma strftime_date_time (d : datetime) :
  strftime d "%Y-%m-%d %H:%M"
  = str_nat (dt_year d) ++ "-" ++ pad2 (dt_month d) ++ "-" ++ pad2 (dt_day d)
    ++ " " ++ pad2 (hour d) ++ ":" ++ pad2 (minute d).
Proof. cbn. now rewrite append_empty_r. Qed.

Lemma date_eqb_eq (a b : date) : date_eqb a b = true <-> a = b.
Proof.
  unfold date_eqb. rewrite !andb_true_iff, !Nat.eqb_eq.
  destruct a, b; simpl. split.
  - now intros [[-> ->] ->].
  - intros E. injection E as -> -> ->. auto.
Qed.

(** The keys of a formatted fact are the same seven for every fact. *)
Lemma fact_dict_keys (delta_format : timedelta -> string) (now : datetime)
      (f : Fact) (with_date : bool) :
  keys (fact_dict delta_format now f with_date)
  = ["start"; "end"; "duration"; "activity"; "category"; "tags";
     "description"].
Proof.
  unfold fact_dict. destruct (end_time f), (tags f); reflexivity.
Qed.

Example running_fact_end_entry :
  dict_get (fact_dict format_HhMM (mkdatetime 2012 8 1 9 5 0 0)
              (mkFact (mkdatetime 2012 8 1 9 0 0 0) None (minutes_td 5)
                      "tea" "" [] "")
              true) "end" = Some "".
Proof. reflexivity. Qed.

(** The report itself reads the clock only inside [fact_dict], where the
    value is dropped, so one reading stands for all of them. *)
Lemma list_print_clock_irrelevant (gettext : string -> string)
      (delta_format : timedelta -> string) (now1 now2 : datetime)
      (facts : list Fact) (start_time end_time : datetime) :
  _list_print gettext delta_format now1 facts start_time end_time
  = _list_print gettext delta_format now2 facts start_time end_time.
Proof. reflexivity. Qed.

(** ** Column widths *)

Section Widths.

Variable gettext : string -> string.
Variable delta_format : timedelta -> string.
Variable now : datetime.

(** A width dictionary with the five keys of [cols], in that order. *)
Let widths5 (a b c d e : nat) : dict nat :=
  [("start", a); ("end", b); ("duration", c); ("activity", d);
   ("category", e)].

Lemma widen_widths5 (a b c d e : nat) (row : dict string) :
  widen (widths5 a b c d e) row
  = widths5 (Nat.max a (length (getitem "" row "start")))
            (Nat.max b (length (getitem "" row "end")))
            (Nat.max c (length (getitem "" row "duration")))
            (Nat.max d (length (getitem "" row "activity")))
            (Nat.max e (length (getitem "" row "category"))).
Proof. reflexivity. Qed.

Lemma fold_widen_widths5 (rows : list (dict string)) :
  forall a b c d e,
    fold_left widen rows (widths5 a b c d e)
    = widths5
        (Nat.max a (list_max (map (fun r => length (getitem "" r "start")) rows)))
        (Nat.max b (list_max (map (fun r => length (getitem "" r "end")) rows)))
        (Nat.max c (list_max (map (fun r => length (getitem "" r "duration")) rows)))
        (Nat.max d (list_max (map (fun r => length (getitem "" r "activity")) rows)))
        (Nat.max e (list_max (map (fun r => length (getitem "" r "category")) rows))).
Proof.
  induction rows as [|r rows IH]; intros a b c d e.
  - simpl. now rewrite !Nat.max_0_r.
  - simpl fold_left. rewrite widen_widths5, IH. simpl map. simpl list_max.
    now rewrite !Nat.max_assoc.
Qed.

Lemma compute_widths_rows (facts : list Fact) (pwd : bool) :
  compute_widths gettext delta_format now facts pwd
  = fold_left widen (map (fun f => fact_dict delta_format now f pwd) facts)
              (init_widths gettext).
Proof.
  unfold compute_widths. generalize (init_widths gettext).
  induction facts as [|f facts IH]; intros ws; [reflexivity|].
  simpl. apply IH.
Qed.

(** The widths, spelled out: each column has its own maximum. *)
Lemma compute_widths_eq (facts : list Fact) (pwd : bool) :
  let cell col f := length (getitem "" (fact_dict delta_format now f pwd) col) in
  compute_widths gettext delta_format now facts pwd
  = widths5
      (Nat.max (length (gettext "Start")) (list_max (map (cell "start") facts)))
      (Nat.max (length (gettext "End")) (list_max (map (cell "end") facts)))
      (Nat.max (length (gettext "Duration")) (list_max (map (cell "duration") facts)))
      (Nat.max (length (gettext "Activity")) (list_max (map (cell "activity") facts)))
      (Nat.max (length (gettext "Category")) (list_max (map (cell "category") facts))).
Proof.
  intros cell. rewrite compute_widths_rows.
  change (init_widths gettext)
    with (widths5 (length (gettext "Start")) (length (gettext "End"))
                  (length (gettext "Duration")) (length (gettext "Activity"))
                  (length (gettext "Category"))).
  rewrite fold_widen_widths5, !map_map. reflexivity.
Qed.

(** The width dictionary keeps the five column keys, so no lookup of a
    column in it fails. *)
Lemma widths_keys (facts : list Fact) (pwd : bool) :
  keys (compute_widths gettext delta_format now facts pwd) = cols.
Proof. now rewrite compute_widths_eq. Qed.

(** Looking a column up in the width dictionary. *)
Lemma widths_lookup (facts : list Fact) (pwd : bool) (col : string) :
  In col cols ->
  dict_get (compute_widths gettext delta_format now facts pwd) col
  = Some (Nat.max
            (length (getitem "" (headers gettext) col))
            (list_max
               (map (fun f =>
                       length (getitem "" (fact_dict delta_format now f pwd) col))
                    facts))).
Proof.
  intros Hcol. rewrite compute_widths_eq.
  destruct Hcol as [<- | [<- | [<- | [<- | [<- | []]]]]]; reflexivity.
Qed.

(** C3: for each of the five columns, the width is the larger of the
    length of the header label and the greatest length of that column's
    formatted field over all facts; no other column enters it, and the
    dictionary has no other key. *)
Theorem column_widths (facts : list Fact) (pwd : bool) (col : string) :
  In col cols ->
  dict_get (compute_widths gettext delta_format now facts pwd) col
  = Some (Nat.max
            (length (getitem "" (headers gettext) col))
            (list_max
               (map (fun f =>
                       length (getitem "" (fact_dict delta_format now f pwd) col))
                    facts)))
  /\ keys (compute_widths gettext delta_format now facts pwd) = cols.
Proof.
  intros Hcol. split; [now apply widths_lookup | apply widths_keys].
Qed.

End Widths.




Lemma column_widths_witness :
  In "activity" cols
  /\ dict_get
       (compute_widths (fun s => s) format_HhMM (mkdatetime 2012 8 1 12 0 0 0)
          example_facts false)
       "activity"
     = Some (Nat.max
               (length (getitem "" (headers (fun s => s)) "activity"))
               (list_max
                  (map (fun f =>
                          length
                            (getitem ""
                               (fact_dict format_HhMM
                                  (mkdatetime 2012 8 1 12 0 0 0) f false)
                               "activity"))
                       example_facts)))
  /\ keys (compute_widths (fun s => s) format_HhMM
             (mkdatetime 2012 8 1 12 0 0 0) example_facts false)
     = cols.
Proof.
  assert (In "activity" cols) as H by (simpl; tauto).
  split; [exact H|].
  exact (column_widths (fun s => s) format_HhMM (mkdatetime 2012 8 1 12 0 0 0)
           example_facts false "activity" H).
Defined.

Example column_widths_ex :
  compute_widths (fun s => s) format_HhMM (mkdatetime 2012 8 1 12 0 0 0)
    [mkFact (mkdatetime 2012 8 1 9 5 0 0)
            (Some (mkdatetime 2012 8 1 10 35 0 0)) (minutes_td 90)
            "a very long activity name" "Work" [] ""]
    false
  = [("start", 5); ("end", 5); ("duration", 8); ("activity", 25);
     ("category", 8)].
Proof. reflexivity. Qed.

(** ** Layout of the report *)

Section Layout.

Variable gettext : string -> string.
Variable delta_format : timedelta -> string.
Variable now : datetime.

Lemma fold_fact_step (widths : dict nat) (pwd : bool) (facts : list Fact) :
  forall (by_cat : dict timedelta) (out : list string),
    fold_left (fact_step gettext delta_format now widths pwd) facts (by_cat, out)
    = (fold_left (add_to_cat gettext) facts by_cat,
       (out ++ flat_map (print_fact delta_format now widths pwd) facts)%list).
Proof.
  induction facts as [|f facts IH]; intros by_cat out; simpl.
  - now rewrite app_nil_r.
  - now rewrite IH, <- app_assoc.
Qed.

Lemma fold_cat_step (l : list (string * timedelta)) :
  forall (cats : list string) (total : timedelta),
    fold_left (cat_step delta_format) l (cats, total)
    = ((cats ++ map (fun it => cat_entry delta_format (fst it) (snd it)) l)%list,
       (total + sum_td (map snd l))%Z).
Proof.
  induction l as [|[cat d] l IH]; intros cats total; simpl.
  - now rewrite app_nil_r, Z.add_0_r.
  - rewrite IH, <- app_assoc. simpl. f_equal. lia.
Qed.

(** The report is the table followed by the summary. *)
Lemma list_print_layout (facts : list Fact) (start_time end_time : datetime) :
  _list_print gettext delta_format now facts start_time end_time
  = (table_lines gettext delta_format now facts
       (negb (date_eqb (date_of start_time) (date_of end_time)))
     ++ summary_lines gettext delta_format facts)%list.
Proof.
  unfold _list_print, table_lines, summary_lines, categories_of, items.
  rewrite fold_fact_step, fold_cat_step. simpl app.
  rewrite <- !app_assoc. reflexivity.
Qed.

Lemma length_str_mul_dash (n : nat) : length (str_mul "-" n) = n.
Proof. induction n as [|n IH]; simpl; [reflexivity | now rewrite IH]. Qed.

Lemma all_dashes_str_mul (n : nat) : all_dashes (str_mul "-" n) = true.
Proof. induction n as [|n IH]; simpl; [reflexivity | assumption]. Qed.

Lemma all_dashes_app_space (a b : string) :
  all_dashes (a ++ String " " b) = false.
Proof.
  induction a as [|c a IH]; simpl; [reflexivity|].
  rewrite IH. apply andb_false_r.
Qed.

Lemma fact_line_not_dashes (widths : dict nat) (d : dict string) :
  all_dashes (fact_line widths d) = false.
Proof.
  unfold fact_line. simpl map. cbv [join].
  change " | " with (String " " "| "). apply all_dashes_app_space.
Qed.

Lemma print_fact_not_dashes (widths : dict nat) (pwd : bool) (f : Fact)
      (l : string) :
  In l (print_fact delta_format now widths pwd f) -> all_dashes l = false.
Proof.
  unfold print_fact. intros Hin.
  apply in_app_or in Hin as [[<- | []] | Hin].
  - apply fact_line_not_dashes.
  - apply in_app_or in Hin as [Hin | Hin];
      match type of Hin with
      | In _ (if ?b then _ else _) => destruct b; [|contradiction]
      end;
      apply in_map_iff in Hin as (x & <- & _); reflexivity.
Qed.

(** Line 341 sums over the five columns. *)
Lemma row_width_cols (facts : list Fact) (pwd : bool) :
  row_width (compute_widths gettext delta_format now facts pwd)
  = list_sum
      (map (fun col =>
              getitem 0 (compute_widths gettext delta_format now facts pwd) col + 3)
           cols).
Proof. rewrite compute_widths_eq. reflexivity. Qed.

Lemma separator_nonempty (facts : list Fact) (pwd : bool) :
  separator (compute_widths gettext delta_format now facts pwd) <> "".
Proof.
  unfold separator. rewrite compute_widths_eq. cbv [row_width values map snd list_sum fold_right].
  match goal with
  | |- str_mul _ ?n <> _ => assert (n <> 0) as Hn by lia; destruct n; [congruence | discriminate]
  end.
Qed.

Lemma count_occ_other (sep : string) (ls : list string) :
  all_dashes sep = true ->
  Forall (fun l => all_dashes l = false) ls ->
  count_occ string_dec ls sep = 0.
Proof.
  intros Hsep Hls. apply count_occ_not_In. intros Hin.
  pose proof (proj1 (Forall_forall _ _) Hls sep Hin). congruence.
Qed.

End Layout.

Lemma not_dashes_neq (sep l : string) :
  all_dashes sep = true -> all_dashes l = false -> l <> sep.
Proof. intros Hsep Hl ->. congruence. Qed.

(** C4: the report is the blank line and the header, the separator, the
    lines of the facts, the separator again, and the summary; the separator
    is a line of dashes as long as the smaller of 80 and the sum over the five
    columns of the width plus 3; no other line of the table part equals it,
    and with no fact at all it is in the whole report exactly twice. *)
Theorem separator_lines (gettext : string -> string)
        (delta_format : timedelta -> string) (now : datetime)
        (facts : list Fact) (start_time end_time : datetime) :
  let pwd := negb (date_eqb (date_of start_time) (date_of end_time)) in
  let widths := compute_widths gettext delta_format now facts pwd in
  let sep :=
    str_mul "-"
      (Nat.min (list_sum (map (fun col => getitem 0 widths col + 3) cols)) 80) in
  let rows := flat_map (print_fact delta_format now widths pwd) facts in
  _list_print gettext delta_format now facts start_time end_time
  = ([""; fact_line widths (headers gettext); sep] ++ rows ++ [sep]
     ++ summary_lines gettext delta_format facts)%list
  /\ length sep
     = Nat.min (list_sum (map (fun col => getitem 0 widths col + 3) cols)) 80
  /\ all_dashes sep = true
  /\ count_occ string_dec
       ([""; fact_line widths (headers gettext); sep] ++ rows ++ [sep])%list sep
     = 2
  /\ count_occ string_dec
       (_list_print gettext delta_format now [] start_time end_time)
       (str_mul "-"
          (Nat.min
             (list_sum
                (map (fun col => length (getitem "" (headers gettext) col) + 3)
                     cols))
             80))
     = 2.
Proof.
  intros pwd widths sep rows.
  assert (separator widths = sep) as Esep.
  { unfold separator, sep, widths. now rewrite row_width_cols. }
  assert (all_dashes sep = true) as Hdash by apply all_dashes_str_mul.
  assert (sep <> "") as Hne.
  { rewrite <- Esep. apply separator_nonempty. }
  assert ("" <> sep) as Hblank by congruence.
  assert (fact_line widths (headers gettext) <> sep) as Hheader
      by (apply not_dashes_neq; [assumption | apply fact_line_not_dashes]).
  repeat split.
  - rewrite list_print_layout. unfold table_lines. fold pwd widths rows.
    rewrite Esep, <- !app_assoc. reflexivity.
  - apply length_str_mul_dash.
  - assumption.
  - simpl app.
    rewrite count_occ_cons_neq by assumption.
    rewrite count_occ_cons_neq by assumption.
    rewrite count_occ_cons_eq by reflexivity.
    rewrite count_occ_app, count_occ_other; [| assumption |].
    + rewrite count_occ_cons_eq by reflexivity. reflexivity.
    + apply Forall_forall. intros l Hl.
      apply in_flat_map in Hl as (f & _ & Hl).
      now apply print_fact_not_dashes in Hl.
  - rewrite list_print_layout.
    set (sep0 := str_mul "-" _).
    assert (all_dashes sep0 = true) as Hdash0 by apply all_dashes_str_mul.
    assert (separator (compute_widths gettext delta_format now [] pwd) = sep0)
      as Esep0 by reflexivity.
    assert (sep0 <> "") as Hne0.
    { rewrite <- Esep0. apply separator_nonempty. }
    unfold table_lines. fold pwd. rewrite Esep0.
    change (summary_lines gettext delta_format [])
      with [print_args ["Total: "; delta_format 0%Z]; ""].
    simpl app.
    rewrite count_occ_cons_neq by congruence.
    rewrite count_occ_cons_neq
      by (apply not_dashes_neq; [assumption | apply fact_line_not_dashes]).
    rewrite !count_occ_cons_eq by reflexivity.
    rewrite count_occ_cons_neq
      by (apply not_dashes_neq; [assumption | reflexivity]).
    rewrite count_occ_cons_neq by congruence.
    reflexivity.
Qed.

Example separator_lines_empty :
  _list_print (fun s => s) format_HhMM (mkdatetime 2012 8 1 12 0 0 0) []
    (mkdatetime 2012 8 1 0 0 0 0) (mkdatetime 2012 8 1 23 59 59 0)
  = [""; "Start | End | Duration | Activity | Category";
     "-----------------------------------------------";
     "-----------------------------------------------";
     "Total:  0h00"; ""].
Proof. reflexivity. Qed.

(** ** The stable descending sort *)

Lemma insert_desc_perm (x : string * timedelta) (l : list (string * timedelta)) :
  Permutation (insert_desc x l) (x :: l).
Proof.
  induction l as [|y l IH]; simpl; [reflexivity|].
  destruct (snd y <=? snd x)%Z; [reflexivity|].
  rewrite IH. apply perm_swap.
Qed.

Lemma sorted_desc_perm (l : list (string * timedelta)) :
  Permutation (sorted_desc l) l.
Proof.
  induction l as [|x l IH]; simpl; [reflexivity|].
  rewrite insert_desc_perm. now constructor.
Qed.

Lemma insert_desc_hd (y x : string * timedelta) (l : list (string * timedelta)) :
  (snd x <= snd y)%Z ->
  HdRel (fun a b => (snd b <= snd a)%Z) y l ->
  HdRel (fun a b => (snd b <= snd a)%Z) y (insert_desc x l).
Proof.
  intros Hxy Hhd. destruct l as [|z l]; simpl.
  - now constructor.
  - destruct (snd z <=? snd x)%Z; constructor; [assumption|].
    now inversion Hhd.
Qed.

Lemma insert_desc_sorted (x : string * timedelta) (l : list (string * timedelta)) :
  Sorted (fun a b => (snd b <= snd a)%Z) l ->
  Sorted (fun a b => (snd b <= snd a)%Z) (insert_desc x l).
Proof.
  induction 1 as [|y l Hl IH Hhd]; simpl.
  - repeat constructor.
  - destruct (_ <=? _)%Z eqn:E.
    + apply Z.leb_le in E.
      constructor; [constructor; assumption | constructor; assumption].
    + apply Z.leb_gt in E. constructor; [assumption|].
      apply insert_desc_hd; [lia | assumption].
Qed.

Lemma sorted_desc_sorted (l : list (string * timedelta)) :
  StronglySorted (fun a b => (snd b <= snd a)%Z) (sorted_desc l).
Proof.
  apply Sorted_StronglySorted.
  - intros a b c Hab Hbc. lia.
  - induction l as [|x l IH]; simpl; [constructor|].
    now apply insert_desc_sorted.
Qed.

(** Stability: the items of one duration keep their order. *)
Lemma insert_desc_stable (d : timedelta) (x : string * timedelta)
      (l : list (string * timedelta)) :
  filter (fun it => (snd it =? d)%Z) (insert_desc x l)
  = filter (fun it => (snd it =? d)%Z) (x :: l).
Proof.
  unfold timedelta in *.
  induction l as [|y l IH]; [reflexivity|].
  simpl insert_desc. destruct (_ <=? _)%Z eqn:E; [reflexivity|].
  apply Z.leb_gt in E.
  simpl filter in *. rewrite IH.
  repeat match goal with
         | |- context [(?a =? ?b)%Z] => destruct (Z.eqb_spec a b)
         end; try reflexivity; exfalso; unfold timedelta in *; lia.
Qed.

Lemma sorted_desc_stable (d : timedelta) (l : list (string * timedelta)) :
  filter (fun it => (snd it =? d)%Z) (sorted_desc l)
  = filter (fun it => (snd it =? d)%Z) l.
Proof.
  induction l as [|x l IH]; [reflexivity|].
  simpl sorted_desc. rewrite insert_desc_stable. simpl. now rewrite IH.
Qed.

(** ** Accumulation per category *)

Lemma sum_td_app (a b : list timedelta) :
  sum_td (a ++ b)%list = (sum_td a + sum_td b)%Z.
Proof.
  induction a as [|x a IH]; simpl; [reflexivity|].
  rewrite IH. lia.
Qed.

Lemma sum_td_perm (a b : list timedelta) :
  Permutation a b -> sum_td a = sum_td b.
Proof. induction 1; simpl; lia. Qed.

Section Accumulation.

Variable gettext : string -> string.

Lemma add_to_cat_nil (f : Fact) :
  add_to_cat gettext [] f = [(label gettext f, delta f)].
Proof.
  unfold add_to_cat, setdefault, getitem. fold (label gettext f). simpl.
  rewrite String.eqb_refl. reflexivity.
Qed.

Lemma add_to_cat_cons (c : string) (v : timedelta) (by_cat : dict timedelta)
      (f : Fact) :
  add_to_cat gettext ((c, v) :: by_cat) f
  = if String.eqb c (label gettext f)
    then (c, (v + delta f)%Z) :: by_cat
    else (c, v) :: add_to_cat gettext by_cat f.
Proof.
  unfold add_to_cat, setdefault, getitem. fold (label gettext f).
  simpl. destruct (String.eqb c (label gettext f)) eqn:E.
  - simpl. now rewrite E.
  - destruct (dict_get by_cat (label gettext f)) eqn:G.
    + simpl. now rewrite E, G.
    + simpl. now rewrite E.
Qed.

Lemma sum_add_to_cat (by_cat : dict timedelta) (f : Fact) :
  sum_td (map snd (add_to_cat gettext by_cat f))
  = (sum_td (map snd by_cat) + delta f)%Z.
Proof.
  induction by_cat as [|[c v] by_cat IH].
  - rewrite add_to_cat_nil. simpl. lia.
  - rewrite add_to_cat_cons.
    destruct (String.eqb c (label gettext f)); simpl; [lia|].
    rewrite IH. lia.
Qed.

Lemma sum_fold_add_to_cat (facts : list Fact) :
  forall by_cat,
    sum_td (map snd (fold_left (add_to_cat gettext) facts by_cat))
    = (sum_td (map snd by_cat) + sum_td (map delta facts))%Z.
Proof.
  induction facts as [|f facts IH]; intros by_cat; simpl.
  - lia.
  - rewrite IH, sum_add_to_cat. lia.
Qed.

(** The totals of all categories add up to the durations of all facts. *)
Lemma sum_categories_of (facts : list Fact) :
  sum_td (map snd (categories_of gettext facts)) = sum_td (map delta facts).
Proof. unfold categories_of. now rewrite sum_fold_add_to_cat. Qed.

(** Adding a fact to a dictionary that holds one total per key. *)
Lemma add_to_cat_totals (T : string -> timedelta) (f : Fact)
      (L : list string) :
  NoDup L ->
  (~ In (label gettext f) L -> T (label gettext f) = 0%Z) ->
  add_to_cat gettext (map (fun c => (c, T c)) L) f
  = map (fun c =>
           (c, (T c + if String.eqb (label gettext f) c then delta f else 0)%Z))
        (L ++ if in_dec string_dec (label gettext f) L
              then [] else [label gettext f])%list.
Proof.
  remember (label gettext f) as k eqn:Hk.
  induction L as [|c L IH]; intros Hnd Hnew.
  - simpl map at 1. rewrite add_to_cat_nil, <- Hk.
    destruct (in_dec string_dec k []) as [[]|_]. simpl.
    rewrite String.eqb_refl, Hnew by (intros []). reflexivity.
  - apply NoDup_cons_iff in Hnd as [Hc HL].
    simpl map at 1. rewrite add_to_cat_cons, <- Hk.
    destruct (String.eqb c k) eqn:E.
    + apply String.eqb_eq in E. subst c.
      destruct (in_dec string_dec k (k :: L)) as [_|Hn];
        [|exfalso; apply Hn; now left].
      rewrite app_nil_r. simpl. rewrite String.eqb_refl. f_equal.
      apply map_ext_in. intros c Hin.
      assert (String.eqb k c = false) as ->
          by (apply String.eqb_neq; intros ->; contradiction).
      f_equal. lia.
    + apply String.eqb_neq in E.
      rewrite IH; [|assumption|].
      * simpl.
        assert (String.eqb k c = false) as -> by (apply String.eqb_neq; congruence).
        rewrite Z.add_0_r. f_equal.
        destruct (string_dec c k) as [Heq|Hne]; [contradiction|].
        destruct (in_dec string_dec k L); reflexivity.
      * intros Hn. apply Hnew. intros [Heq | Hin]; [congruence | contradiction].
Qed.

Lemma first_seen_in (l : list string) (k : string) :
  In k (first_seen l) <-> In k l.
Proof.
  induction l as [|x l IH]; simpl; [tauto|].
  rewrite filter_In, IH, negb_true_iff, String.eqb_neq.
  destruct (string_dec x k) as [-> | Hne]; [tauto|].
  split; [tauto|]. intros [? | ?]; [tauto | right; split; congruence].
Qed.

Lemma first_seen_NoDup (l : list string) : NoDup (first_seen l).
Proof.
  induction l as [|x l IH]; simpl; constructor.
  - rewrite filter_In, String.eqb_refl. intros [_ H]. discriminate.
  - now apply NoDup_filter.
Qed.

Lemma first_seen_snoc (l : list string) (k : string) :
  first_seen (l ++ [k])
  = (first_seen l ++ if in_dec string_dec k (first_seen l) then [] else [k])%list.
Proof.
  induction l as [|x l IH]; cbn [app first_seen].
  - destruct (in_dec string_dec k []) as [[]|Hn]. reflexivity.
  - rewrite IH, filter_app. do 2 f_equal.
    set (A := first_seen l).
    set (keep := fun k' => negb (String.eqb k' x)).
    destruct (in_dec string_dec k A) as [Hin|Hn],
             (in_dec string_dec k (x :: filter keep A)) as [Hin'|Hn'];
      cbn [filter].
    + reflexivity.
    + exfalso. apply Hn'.
      destruct (string_dec x k) as [Heq | Hne]; [now left | right].
      apply filter_In. split; [assumption|].
      unfold keep. apply negb_true_iff, String.eqb_neq. congruence.
    + destruct Hin' as [Heq | Hin'].
      * unfold keep. subst x. now rewrite String.eqb_refl.
      * apply filter_In in Hin' as [? _]. contradiction.
    + assert (keep k = true) as ->; [|reflexivity].
      unfold keep. apply negb_true_iff, String.eqb_neq.
      intros Heq. apply Hn'. now left.
Qed.

Lemma total_of_snoc (c : string) (facts : list Fact) (f : Fact) :
  total_of gettext c (facts ++ [f])
  = (total_of gettext c facts
     + if String.eqb (label gettext f) c then delta f else 0)%Z.
Proof.
  unfold total_of. rewrite filter_app, map_app, sum_td_app. simpl.
  destruct (String.eqb (label gettext f) c); simpl; lia.
Qed.

Lemma total_of_absent (c : string) (facts : list Fact) :
  ~ In c (map (label gettext) facts) -> total_of gettext c facts = 0%Z.
Proof.
  unfold total_of. induction facts as [|f facts IH]; intros Hn; [reflexivity|].
  simpl in *.
  assert (String.eqb (label gettext f) c = false) as ->
      by (apply String.eqb_neq; tauto).
  apply IH. tauto.
Qed.

(** [by_cat] after the loop: one entry per key, in the order in which the
    keys were first met, each with the total of its facts. *)
Lemma categories_of_spec (facts : list Fact) :
  categories_of gettext facts
  = map (fun c => (c, total_of gettext c facts))
        (first_seen (map (label gettext) facts)).
Proof.
  induction facts as [|f facts IH] using rev_ind; [reflexivity|].
  unfold categories_of in *. rewrite fold_left_app. simpl fold_left.
  rewrite IH, map_app. simpl map at 3. rewrite first_seen_snoc.
  rewrite add_to_cat_totals.
  - apply map_ext. intros c. now rewrite total_of_snoc.
  - apply first_seen_NoDup.
  - intros Hn. apply total_of_absent. now rewrite <- first_seen_in.
Qed.

End Accumulation.

(** ** The summary *)

(** C7: a fact without category is accumulated under the label that
    [gettext] gives for "Unsorted"; the dictionary holds, per label, the
    total duration of its facts, in the order in which the labels were
    first met; the entries of the summary are that dictionary sorted by
    descending total, entries of equal total keeping that order; for the
    example of the specification the entries are "Work: 2h00" and then
    "Unsorted: 0h15". *)
Theorem category_summary (gettext : string -> string)
        (delta_format : timedelta -> string) (now : datetime)
        (facts : list Fact) (start_time end_time : datetime) :
  let by_cat := categories_of gettext facts in
  let sorted := sorted_desc (items by_cat) in
  _list_print gettext delta_format now facts start_time end_time
  = (table_lines gettext delta_format now facts
       (negb (date_eqb (date_of start_time) (date_of end_time)))
     ++ word_wrap
          (join ", "
             (map (fun it => cat_entry delta_format (fst it) (snd it)) sorted))
          80
     ++ [print_args ["Total: "; delta_format (sum_td (map snd sorted))]; ""])%list
  /\ (forall f,
        label gettext f
        = match category f with
          | EmptyString => gettext "Unsorted"
          | c => c
          end)
  /\ by_cat
     = map (fun c => (c, total_of gettext c facts))
           (first_seen (map (label gettext) facts))
  /\ Permutation sorted by_cat
  /\ StronglySorted (fun a b => (snd b <= snd a)%Z) sorted
  /\ (forall d,
        filter (fun it => (snd it =? d)%Z) sorted
        = filter (fun it => (snd it =? d)%Z) by_cat)
  /\ map (fun it => cat_entry format_HhMM (fst it) (snd it))
         (sorted_desc (items (categories_of (fun s => s) example_facts)))
     = ["Work: 2h00"; "Unsorted: 0h15"].
Proof.
  intros by_cat sorted. repeat split.
  - apply list_print_layout.
  - intros f. unfold label, str_or. now destruct (category f).
  - apply categories_of_spec.
  - apply sorted_desc_perm.
  - apply sorted_desc_sorted.
  - intros d. apply sorted_desc_stable.
Qed.

Example category_summary_ties :
  sorted_desc [("a", minutes_td 10); ("b", minutes_td 20); ("c", minutes_td 10);
               ("d", minutes_td 20)]
  = [("b", minutes_td 20); ("d", minutes_td 20); ("a", minutes_td 10);
     ("c", minutes_td 10)].
Proof. reflexivity. Qed.

Example category_summary_line :
  summary_lines (fun s => s) format_HhMM example_facts
  = ["Work: 2h00, Unsorted: 0h15"; "Total:  2h15"; ""].
Proof. reflexivity. Qed.

Lemma print_args_total (x : string) :
  print_args ["Total: "; x] = "Total:  " ++ x.
Proof. reflexivity. Qed.

(** C8: after the category entries the report prints the word "Total:" and
    the formatted sum of the durations of all facts, which is also the sum of
    the totals of the categories; [print] puts its own space after the
    argument "Total: ", so two spaces stand before the duration, and the line
    is never "Total: " directly followed by the duration; with no fact the
    line is "Total:  0h00". *)
Theorem total_line (gettext : string -> string)
        (delta_format : timedelta -> string) (now : datetime)
        (facts : list Fact) (start_time end_time : datetime) :
  let total := sum_td (map delta facts) in
  _list_print gettext delta_format now facts start_time end_time
  = (table_lines gettext delta_format now facts
       (negb (date_eqb (date_of start_time) (date_of end_time)))
     ++ word_wrap
          (join ", "
             (map (fun it => cat_entry delta_format (fst it) (snd it))
                  (sorted_desc (items (categories_of gettext facts)))))
          80
     ++ [print_args ["Total: "; delta_format total]; ""])%list
  /\ print_args ["Total: "; delta_format total] = "Total:  " ++ delta_format total
  /\ sum_td (map snd (categories_of gettext facts)) = total
  /\ "Total:  " ++ delta_format total <> "Total: " ++ delta_format total
  /\ nth 4 (_list_print (fun s => s) format_HhMM now [] start_time end_time) ""
     = "Total:  0h00".
Proof.
  intros total.
  assert (sum_td (map snd (sorted_desc (items (categories_of gettext facts))))
          = total) as Hsum.
  { rewrite (sum_td_perm _ (map snd (categories_of gettext facts))).
    - apply sum_categories_of.
    - apply Permutation_map, sorted_desc_perm. }
  repeat split.
  - rewrite list_print_layout. unfold summary_lines.
    now rewrite Hsum.
  - apply sum_categories_of.
  - intros E. apply (f_equal length) in E.
    rewrite !length_append in E. simpl in E. lia.
Qed.


(** * Further properties *)

(** ** word_wrap: shape of the lines *)

Lemma forced_groups_last (max_len : Z) (gs : list (list string))
      (g g' : list string) :
  hd "" g' = hd "" g ->
  forced_groups max_len (gs ++ [g])%list ->
  forced_groups max_len (gs ++ [g'])%list.
Proof.
  intros Hhd. induction gs as [|g1 gs IH]; [easy|].
  destruct gs as [|g2 gs]; simpl in *.
  - intros [H _]. rewrite Hhd. now split.
  - intros [H1 H2]. split; [assumption | now apply IH].
Qed.

Lemma forced_groups_snoc (max_len : Z) (gs : list (list string))
      (g h : list string) :
  forced_groups max_len (gs ++ [g])%list ->
  (max_len <= len (join " " g) + 1 + len (hd "" h))%Z ->
  forced_groups max_len ((gs ++ [g]) ++ [h])%list.
Proof.
  intros Hgs Hbreak. induction gs as [|g1 gs IH]; [now simpl|].
  destruct gs as [|g2 gs]; simpl in *.
  - destruct Hgs as [H _]. now repeat split.
  - destruct Hgs as [H1 H2]. split; [assumption | now apply IH].
Qed.

Lemma len_fmt_pair (a b : string) : len (fmt_pair a b) = (len a + 1 + len b)%Z.
Proof. unfold len, fmt_pair. rewrite !length_append. simpl. lia. Qed.

Lemma wrap_step_greedy (max_len : Z) (st : list string * string)
      (done : list string) (x : string) :
  Forall is_word done -> is_word x ->
  wrap_state_greedy max_len st done ->
  wrap_state_greedy max_len (wrap_step max_len st x) (done ++ [x])%list.
Proof.
  intros Hdone Hx (gs & g & -> & Hcat & Hne & Hempty & Hforced).
  assert (Forall is_word g) as Hgw.
  { rewrite <- Hcat in Hdone. now apply Forall_app in Hdone. }
  unfold wrap_step.
  destruct (Z.of_nat (length (fmt_pair (join " " g) x)) <? max_len)%Z eqn:Hlt.
  - exists gs, (g ++ [x])%list. destruct g as [|w g].
    + simpl join. rewrite strip_first_word by assumption.
      rewrite (Hempty eq_refl) in *.
      repeat split; [now rewrite <- Hcat | constructor].
    + assert (fmt_pair (join " " (w :: g)) x = join " " ((w :: g) ++ [x])%list)
        as E by (rewrite join_app by congruence; reflexivity).
      rewrite E, strip_join.
      * repeat split.
        -- now rewrite <- Hcat, <- app_assoc.
        -- assumption.
        -- discriminate.
        -- now apply forced_groups_last with (w :: g).
      * discriminate.
      * apply Forall_app. split; [assumption | now constructor].
  - apply Z.ltb_ge in Hlt. fold (len (fmt_pair (join " " g) x)) in Hlt.
    rewrite len_fmt_pair in Hlt.
    destruct g as [|w g].
    + rewrite (Hempty eq_refl) in *. exists [], [x]. simpl.
      repeat split; first [now rewrite <- Hcat | constructor | discriminate].
    + exists (gs ++ [w :: g])%list, [x].
      assert (truthy (join " " (w :: g)) = true) as ->.
      { apply truthy_true. apply join_words_rstrip; [discriminate | assumption]. }
      rewrite map_app. repeat split.
      * rewrite List.concat_app. simpl. now rewrite app_nil_r, <- Hcat.
      * apply Forall_app. split; [assumption|]. constructor; [discriminate | constructor].
      * discriminate.
      * now apply forced_groups_snoc.
Qed.

Lemma wrap_fold_greedy (max_len : Z) (ws : list string) :
  forall (st : list string * string) (done : list string),
    Forall is_word ws -> Forall is_word done ->
    wrap_state_greedy max_len st done ->
    wrap_state_greedy max_len (fold_left (wrap_step max_len) ws st)
                      (done ++ ws)%list.
Proof.
  induction ws as [|x ws IH]; intros st done Hws Hdone Hst.
  - now rewrite app_nil_r.
  - apply Forall_cons_iff in Hws as [Hx Hws]. simpl.
    replace (done ++ x :: ws)%list with ((done ++ [x]) ++ ws)%list
      by (now rewrite <- app_assoc).
    apply IH; [assumption | | now apply wrap_step_greedy].
    apply Forall_app. split; [assumption | now constructor].
Qed.

(** The lines of [word_wrap] are groups of consecutive words of the input,
    none empty, and every break between two groups was forced. *)
Lemma word_wrap_greedy_groups (line : string) (max_len : Z) :
  exists gs,
    word_wrap line max_len = map (join " ") gs
    /\ List.concat gs = split line
    /\ Forall (fun g => g <> [] /\ Forall is_word g) gs
    /\ forced_groups max_len gs.
Proof.
  pose proof (split_words line) as Hwords.
  destruct (wrap_fold_greedy max_len (split line) ([], "") []
              Hwords (Forall_nil _)) as (gs & g & E & Hcat & Hne & Hempty & Hf).
  { exists [], []. now repeat split. }
  simpl in Hcat. unfold word_wrap. rewrite E.
  assert (Forall (Forall is_word) (gs ++ [g])%list) as Hall.
  { apply Forall_concat. rewrite List.concat_app. simpl.
    now rewrite app_nil_r, Hcat. }
  destruct g as [|w g].
  - rewrite (Hempty eq_refl) in *. exists []. simpl in *.
    repeat split; [assumption | constructor].
  - exists (gs ++ [w :: g])%list.
    apply Forall_app in Hall as Hall'. destruct Hall' as [Hgs Hg].
    assert (truthy (join " " (w :: g)) = true) as ->.
    { apply truthy_true. apply join_words_rstrip; [discriminate|].
      now apply Forall_inv in Hg. }
    rewrite map_app. repeat split.
    + rewrite List.concat_app. simpl. now rewrite app_nil_r.
    + apply Forall_forall. intros g' Hin. split.
      * apply in_app_or in Hin as [Hin | [<- | []]]; [|discriminate].
        apply (proj1 (Forall_forall _ _) Hne g' Hin).
      * apply (proj1 (Forall_forall _ _) Hall g' Hin).
    + assumption.
Qed.

(** X1: every line that [word_wrap] returns is non-empty, has no whitespace
    at either end, and is its own words joined by single spaces. *)
Theorem word_wrap_lines_normalised (line : string) (max_len : Z) :
  Forall (fun l => l <> "" /\ strip l = l /\ join " " (split l) = l)
         (word_wrap line max_len).
Proof.
  destruct (word_wrap_greedy_groups line max_len) as (gs & -> & _ & Hgs & _).
  apply Forall_forall. intros l Hl.
  apply in_map_iff in Hl as (g & <- & Hg).
  destruct (proj1 (Forall_forall _ _) Hgs g Hg) as [Hne Hwords].
  repeat split.
  - now apply join_words_rstrip.
  - now apply strip_join.
  - now rewrite split_join.
Qed.

Lemma forced_groups_lines (max_len : Z) (gs : list (list string)) :
  Forall (fun g => g <> [] /\ Forall is_word g) gs ->
  forced_groups max_len gs ->
  breaks_forced max_len (map (join " ") gs).
Proof.
  induction 1 as [|g1 gs Hg1 Hgs IH]; [easy|].
  destruct gs as [|g2 gs]; [easy|].
  intros [Hbreak Hrest]. split; [|now apply IH].
  apply Forall_inv in Hgs as [_ Hw2]. now rewrite split_join.
Qed.

(** X2: [word_wrap] is greedy: between two consecutive lines of the result,
    the first word of the second line was too long to go behind the first
    line, separated by a space, and stay under the width. *)
Theorem word_wrap_breaks_forced (line : string) (max_len : Z) :
  breaks_forced max_len (word_wrap line max_len).
Proof.
  destruct (word_wrap_greedy_groups line max_len) as (gs & -> & _ & Hgs & Hf).
  now apply forced_groups_lines.
Qed.

(** X3: a text with at least one word whose words, joined by single spaces,
    stay under the width comes back as that one line. *)
Theorem word_wrap_fits (line : string) (max_len : Z) :
  split line <> [] ->
  (len (join " " (split line)) < max_len)%Z ->
  word_wrap line max_len = [join " " (split line)].
Proof.
  intros Hne Hfit.
  destruct (word_wrap_greedy_groups line max_len) as (gs & -> & Hcat & Hgs & Hf).
  rewrite <- Hcat in *.
  destruct gs as [|g1 [|g2 gs]].
  - now contradiction Hne.
  - simpl. now rewrite app_nil_r.
  - exfalso. destruct Hf as [Hbreak _].
    apply Forall_cons_iff in Hgs as [[Hg1 _] Hgs].
    apply Forall_inv in Hgs as [Hg2 _].
    destruct g2 as [|x g2]; [congruence|].
    change (List.concat (g1 :: (x :: g2) :: gs))
      with (g1 ++ x :: (g2 ++ List.concat gs))%list in Hfit.
    rewrite join_app in Hfit by congruence.
    pose proof (join_length_ge " " (x :: (g2 ++ List.concat gs))%list x
                  (or_introl eq_refl)) as Hx.
    remember (join " " (x :: (g2 ++ List.concat gs))%list) as rest.
    unfold len in *. rewrite !length_append in Hfit. simpl in Hbreak, Hfit. lia.
Qed.

Lemma word_wrap_fits_witness :
  split " two  words " <> []
  /\ (len (join " " (split " two  words ")) < 10)%Z
  /\ word_wrap " two  words " 10 = [join " " (split " two  words ")].
Proof.
  assert (split " two  words " <> []) as H1 by discriminate.
  assert (len (join " " (split " two  words ")) < 10)%Z as H2 by reflexivity.
  split; [exact H1 | split; [exact H2|]].
  exact (word_wrap_fits " two  words " 10 H1 H2).
Defined.

Lemma singleton_groups (gs : list (list string)) :
  Forall (fun g => exists x, g = [x]) gs ->
  map (join " ") gs = List.concat gs.
Proof.
  induction 1 as [|g gs [x ->] _ IH]; [reflexivity|].
  simpl. now rewrite IH.
Qed.

(** X4: under a width of at most 2 no two words share a line: the lines are
    the words of the text. *)
Theorem word_wrap_narrow (line : string) (max_len : Z) :
  (max_len <= 2)%Z -> word_wrap line max_len = split line.
Proof.
  intros Hw.
  destruct (word_wrap_groups line max_len) as (gs & -> & Hcat & Hgs).
  rewrite <- Hcat. apply singleton_groups.
  assert (Forall (Forall is_word) gs) as Hwords.
  { apply Forall_concat. rewrite Hcat. apply split_words. }
  apply Forall_forall. intros g Hg.
  destruct (proj1 (Forall_forall _ _) Hgs g Hg) as [Hne [Hshort | Hone]];
    [|assumption].
  pose proof (proj1 (Forall_forall _ _) Hwords g Hg) as Hgw.
  destruct g as [|x [|y g]]; [congruence | eauto |].
  exfalso.
  apply Forall_cons_iff in Hgw as [Hx Hgw].
  apply Forall_inv in Hgw as Hy.
  apply word_nonempty in Hx. apply word_nonempty in Hy.
  pose proof (join_length_ge " " (y :: g) y (or_introl eq_refl)) as Hlen.
  rewrite join_cons in Hshort by congruence.
  unfold len in Hshort. rewrite !length_append in Hshort. simpl in Hshort.
  destruct x; [congruence|]. destruct y; [congruence|]. simpl in *. lia.
Qed.

Lemma word_wrap_narrow_witness :
  (2 <= 2)%Z /\ word_wrap "a bc  d" 2 = split "a bc  d".
Proof.
  assert (2 <= 2)%Z as H by discriminate.
  split; [exact H | exact (word_wrap_narrow "a bc  d" 2 H)].
Defined.

(** X5: [word_wrap] returns no line exactly when the text has no word, that
    is when it is empty or all whitespace. *)
Theorem word_wrap_empty_iff (line : string) (max_len : Z) :
  word_wrap line max_len = [] <-> split line = [].
Proof.
  split.
  - destruct (word_wrap_groups line max_len) as (gs & -> & Hcat & _).
    intros E. apply map_eq_nil in E. now rewrite <- Hcat, E.
  - intros E. unfold word_wrap. now rewrite E.
Qed.

Lemma split_join_word_wrap (line : string) (max_len : Z) :
  split (join " " (word_wrap line max_len)) = split line.
Proof.
  destruct (word_wrap_groups line max_len) as (gs & -> & Hcat & Hgs).
  rewrite join_concat by (now apply good_groups_nonempty with max_len).
  rewrite Hcat. apply split_join, split_words.
Qed.

(** X6: wrapping is idempotent: the lines joined by single spaces and
    wrapped again at the same width are the same lines; more generally two
    texts with the same words are wrapped alike, whatever their
    whitespace. *)
Theorem word_wrap_idempotent (line : string) (max_len : Z) :
  word_wrap (join " " (word_wrap line max_len)) max_len
  = word_wrap line max_len
  /\ word_wrap (join " " (split line)) max_len = word_wrap line max_len.
Proof.
  split.
  - unfold word_wrap at 1. rewrite split_join_word_wrap. reflexivity.
  - unfold word_wrap. now rewrite split_join by apply split_words.
Qed.

(** ** fact_dict and the table: further properties *)

Lemma fact_dict_eq (delta_format : timedelta -> string) (now : datetime)
      (f : Fact) (with_date : bool) :
  fact_dict delta_format now f with_date
  = let fmt := if with_date then "%Y-%m-%d %H:%M" else "%H:%M" in
    [("start", strftime (start_time f) fmt);
     ("end", match end_time f with
             | Some e => strftime e fmt
             | None => ""
             end);
     ("duration", delta_format (delta f));
     ("activity", activity f);
     ("category", category f);
     ("tags", join " " (map (fun tag => "#" ++ tag) (tags f)));
     ("description", description f)].
Proof. unfold fact_dict. destruct (end_time f), (tags f); reflexivity. Qed.

(** X7: when no tag contains whitespace, the words of the tags cell are the
    tags, each behind a hash sign, in order: wrapping the cell never cuts a
    tag and never merges two. *)
Theorem tags_cell_words (delta_format : timedelta -> string) (now : datetime)
        (f : Fact) (with_date : bool) :
  Forall (fun tag => no_space tag = true) (tags f) ->
  split (getitem "" (fact_dict delta_format now f with_date) "tags")
  = map (fun tag => "#" ++ tag) (tags f).
Proof.
  intros Htags. rewrite fact_dict_eq. cbv zeta.
  change (getitem "" _ "tags")
    with (join " " (map (fun tag => "#" ++ tag) (tags f))).
  apply split_join. apply Forall_map.
  apply Forall_impl with (2 := Htags). intros tag Htag.
  now apply is_word_cons.
Qed.

Lemma tags_cell_words_witness :
  Forall (fun tag => no_space tag = true)
         (tags (mkFact (mkdatetime 2012 8 1 9 0 0 0) None (minutes_td 5)
                       "tea" "" ["green"; "hot"] ""))
  /\ split (getitem ""
              (fact_dict format_HhMM (mkdatetime 2012 8 1 9 5 0 0)
                 (mkFact (mkdatetime 2012 8 1 9 0 0 0) None (minutes_td 5)
                         "tea" "" ["green"; "hot"] "")
                 false)
              "tags")
     = map (fun tag => "#" ++ tag)
           (tags (mkFact (mkdatetime 2012 8 1 9 0 0 0) None (minutes_td 5)
                         "tea" "" ["green"; "hot"] "")).
Proof.
  assert (Forall (fun tag => no_space tag = true)
                 (tags (mkFact (mkdatetime 2012 8 1 9 0 0 0) None (minutes_td 5)
                               "tea" "" ["green"; "hot"] ""))) as H
      by (repeat constructor).
  split; [exact H|].
  exact (tags_cell_words format_HhMM (mkdatetime 2012 8 1 9 5 0 0) _ false H).
Defined.




(** X9: no column is ever narrower than its header label, and listing more
    facts never makes a column narrower. *)
Theorem widths_grow (gettext : string -> string)
        (delta_format : timedelta -> string) (now : datetime)
        (facts more : list Fact) (pwd : bool) :
  Forall (fun col =>
            length (getitem "" (headers gettext) col)
            <= getitem 0 (compute_widths gettext delta_format now facts pwd) col
            /\ getitem 0 (compute_widths gettext delta_format now facts pwd) col
               <= getitem 0 (compute_widths gettext delta_format now
                               (facts ++ more) pwd) col)
         cols.
Proof.
  apply Forall_forall. intros col Hcol. unfold getitem at 2 3 4.
  rewrite !(widths_lookup gettext delta_format now _ pwd col Hcol).
  rewrite map_app, list_max_app. lia.
Qed.

Lemma word_wrap_lines_bounded (line : string) (max_len : Z) :
  Forall (fun l => (len l < max_len)%Z \/ (is_word l /\ (max_len <= len l)%Z))
         (word_wrap line max_len).
Proof.
  destruct (word_wrap_groups line max_len) as (gs & -> & Hcat & Hgs).
  apply Forall_forall. intros l Hl.
  apply in_map_iff in Hl as (g & <- & Hg).
  pose proof (proj1 (Forall_forall _ _) Hgs g Hg) as [_ [Hshort | [x ->]]];
    [now left|].
  simpl. destruct (Z.lt_ge_cases (len x) max_len) as [Hlt | Hge]; [now left|].
  right. split; [|assumption].
  apply (proj1 (Forall_forall _ _) (split_words line)).
  rewrite <- Hcat. apply in_concat. exists [x]. split; [assumption | now left].
Qed.

(** X10: what a fact prints is its row followed by detail lines; every
    detail line is four spaces and then some text of less than 76
    characters, or a single word of the description or of the tags that is
    longer than that. *)
Theorem fact_detail_lines (delta_format : timedelta -> string) (now : datetime)
        (widths : dict nat) (pwd : bool) (f : Fact) :
  exists details,
    print_fact delta_format now widths pwd f
    = fact_line widths (fact_dict delta_format now f pwd) :: details
    /\ Forall (fun l =>
                 exists body,
                   l = "    " ++ body
                   /\ ((len body < 76)%Z \/ (is_word body /\ (76 <= len body)%Z)))
              details.
Proof.
  unfold print_fact. eexists. split; [reflexivity|].
  apply Forall_app. split;
    match goal with
    | |- Forall _ (if ?b then _ else _) => destruct b; [|constructor]
    end;
    apply Forall_map;
    apply Forall_impl with (2 := word_wrap_lines_bounded _ 76);
    intros body Hbody; exists body; (split; [reflexivity | assumption]).
Qed.

Lemma date_eqb_refl (d : date) : date_eqb d d = true.
Proof. now apply date_eqb_eq. Qed.

(** X11: when the parser returns no end, the end is defaulted to the start's
    day, so [list] prints every time without its date, and [export] asks for
    a report of that single day, in the format named first. *)
Theorem defaulted_end_single_day (gettext : string -> string)
        (delta_format : timedelta -> string) (now : datetime)
        (get_facts : datetime -> datetime -> string -> list Fact)
        (get_facts_range : datetime -> datetime -> list Fact)
        (Range_parse : string -> option datetime * option datetime)
        (today : date) (tokens : list string) (format_name : string)
        (start : option datetime) :
  Range_parse (join " " tokens) = (start, None) ->
  let r := list_range Range_parse today tokens in
  let facts := get_facts (fst r) (snd r) "" in
  date_of (fst r) = date_of (snd r)
  /\ HamsterCli_list gettext delta_format now get_facts Range_parse today tokens
     = (table_lines gettext delta_format now facts false
        ++ summary_lines gettext delta_format facts)%list
  /\ HamsterCli_export get_facts_range Range_parse today (format_name :: tokens)
     = (get_facts_range (fst r) (snd r), date_of (fst r), date_of (fst r),
        format_name).
Proof.
  intros Hparse r facts.
  assert (date_of (fst r) = date_of (snd r)) as Hday.
  { unfold r, list_range. rewrite Hparse. now destruct start. }
  repeat split.
  - assumption.
  - unfold HamsterCli_list. fold r. destruct r as [s e] eqn:Er.
    unfold _list. rewrite list_print_layout. simpl in Hday.
    rewrite Hday, date_eqb_refl. reflexivity.
  - unfold HamsterCli_export. simpl tl.
    change (default_range today (Range_parse (join " " tokens))) with r.
    destruct r as [s e] eqn:Er. simpl in *. now rewrite Hday.
Qed.

Lemma defaulted_end_single_day_witness :
  (fun _ : string => (@None datetime, @None datetime)) (join " " []) = (None, None)
  /\ let r := list_range (fun _ => (None, None)) (mkdate 2012 8 1) [] in
     let facts := (fun _ _ _ => example_facts) (fst r) (snd r) "" in
     date_of (fst r) = date_of (snd r)
     /\ HamsterCli_list (fun s => s) format_HhMM (mkdatetime 2012 8 1 12 0 0 0)
          (fun _ _ _ => example_facts) (fun _ => (None, None)) (mkdate 2012 8 1) []
        = (table_lines (fun s => s) format_HhMM (mkdatetime 2012 8 1 12 0 0 0)
             facts false
           ++ summary_lines (fun s => s) format_HhMM facts)%list
     /\ HamsterCli_export (fun _ _ => example_facts) (fun _ => (None, None))
          (mkdate 2012 8 1) ["tsv"]
        = ((fun _ _ => example_facts) (fst r) (snd r), date_of (fst r),
           date_of (fst r), "tsv").
Proof.
  split; [reflexivity|].
  exact (defaulted_end_single_day (fun s => s) format_HhMM
           (mkdatetime 2012 8 1 12 0 0 0) (fun _ _ _ => example_facts)
           (fun _ _ => example_facts)
           (fun _ => (None, None)) (mkdate 2012 8 1) [] "tsv" None eq_refl).
Defined.

(** ** The completion and status commands *)

Lemma split_sep_length (c : ascii) (s : string) :
  List.length (split_sep c s) = S (count_char c s).
Proof.
  induction s as [|x s IH]; [reflexivity|].
  simpl. destruct (Ascii.eqb x c); simpl.
  - now rewrite IH.
  - destruct (split_sep c s); simpl in *; [discriminate | assumption].
Qed.

Lemma contains_char_count (c : ascii) (s : string) :
  contains_char c s = negb (Nat.eqb (count_char c s) 0).
Proof.
  induction s as [|x s IH]; [reflexivity|].
  simpl. destruct (Ascii.eqb x c); simpl; [reflexivity | assumption].
Qed.

Lemma split_sep_none (c : ascii) (s : string) :
  contains_char c s = false -> split_sep c s = [s].
Proof.
  induction s as [|x s IH]; [reflexivity|].
  simpl. destruct (Ascii.eqb x c); simpl; [discriminate|].
  intros H. now rewrite IH.
Qed.

Lemma split_sep_app (c : ascii) (a b : string) :
  contains_char c a = false ->
  split_sep c (a ++ String c b) = a :: split_sep c b.
Proof.
  induction a as [|x a IH]; simpl.
  - now rewrite Ascii.eqb_refl.
  - destruct (Ascii.eqb x c); simpl; [discriminate|].
    intros H. now rewrite IH.
Qed.

Lemma contains_char_app (c : ascii) (a b : string) :
  contains_char c (a ++ b) = contains_char c a || contains_char c b.
Proof.
  induction a as [|x a IH]; [reflexivity|].
  simpl. now rewrite IH, orb_assoc.
Qed.

(** X12: [_activities] raises [ValueError] exactly when the search text holds
    two or more at signs; with none or one it prints and returns. *)
Theorem activities_value_error (get_categories : list CategoryRow)
        (get_activities : string -> list ActivityRow) (search : string) :
  _activities get_categories get_activities search = Raise ValueError
  <-> 2 <= count_char "@" search.
Proof.
  unfold _activities. rewrite contains_char_count.
  pose proof (split_sep_length "@" search) as Hlen.
  destruct (count_char "@" search) as [|[|n]] eqn:Hcount; simpl.
  - split; [discriminate | lia].
  - destruct (split_sep "@" search) as [|a [|b [|c rest]]]; try discriminate.
    split; [discriminate | lia].
  - destruct (split_sep "@" search) as [|a [|b [|c rest]]]; try discriminate.
    split; [lia | reflexivity].
Qed.

Lemma category_lines_filter (activity category : string)
      (cats : list CategoryRow) :
  flat_map (category_lines activity category) cats
  = map (fun cat => at_pair activity (cat_name cat))
        (filter (fun cat =>
                   negb (truthy category)
                   || startswith (lower (cat_name cat)) (lower category))
                cats).
Proof.
  induction cats as [|cat cats IH]; [reflexivity|].
  simpl. unfold category_lines at 1.
  destruct (negb (truthy category)
            || startswith (lower (cat_name cat)) (lower category));
    simpl; now rewrite IH.
Qed.

Lemma activities_one_at (get_categories : list CategoryRow)
      (get_activities : string -> list ActivityRow) (activity category : string) :
  contains_char "@" activity = false ->
  contains_char "@" category = false ->
  _activities get_categories get_activities (at_pair activity category)
  = Ok (map (fun cat => at_pair activity (cat_name cat))
            (filter (fun cat =>
                       negb (truthy category)
                       || startswith (lower (cat_name cat)) (lower category))
                    get_categories)).
Proof.
  intros Ha Hc. unfold _activities, at_pair.
  change (activity ++ "@" ++ category) with (activity ++ String "@" category).
  rewrite contains_char_app. simpl contains_char at 2.
  rewrite orb_true_r, split_sep_app, split_sep_none by assumption.
  now rewrite category_lines_filter.
Qed.

(** X13: for a search text of the form activity, at sign, category, with no
    further at sign, [_activities] prints one line per stored category whose
    lower-cased name starts with the lower-cased category text (every
    category when that text is empty), in the order of the storage; each line
    is the activity text as typed, an at sign and the stored name. *)
Theorem activities_completes_category (get_categories : list CategoryRow)
        (get_activities : string -> list ActivityRow)
        (activity category : string) :
  contains_char "@" activity = false ->
  contains_char "@" category = false ->
  _activities get_categories get_activities (at_pair activity category)
  = Ok (map (fun cat => at_pair activity (cat_name cat))
            (filter (fun cat =>
                       negb (truthy category)
                       || startswith (lower (cat_name cat)) (lower category))
                    get_categories)).
Proof. apply activities_one_at. Qed.

Lemma activities_completes_category_witness :
  contains_char "@" "code" = false
  /\ contains_char "@" "HO" = false
  /\ _activities [mkCategoryRow "Work"; mkCategoryRow "home"; mkCategoryRow "Hobby"]
       (fun _ => []) (at_pair "code" "HO")
     = Ok (map (fun cat => at_pair "code" (cat_name cat))
               (filter (fun cat =>
                          negb (truthy "HO")
                          || startswith (lower (cat_name cat)) (lower "HO"))
                       [mkCategoryRow "Work"; mkCategoryRow "home";
                        mkCategoryRow "Hobby"])).
Proof.
  split; [reflexivity | split; [reflexivity|]].
  exact (activities_completes_category
           [mkCategoryRow "Work"; mkCategoryRow "home"; mkCategoryRow "Hobby"]
           (fun _ => []) "code" "HO" eq_refl eq_refl).
Defined.

(** X14: the lines that [activities] prints can be given back to
    [_activities]: when neither the name nor the category of a stored
    activity holds an at sign, its line is split again into that name and
    that category, and completion never raises on it. *)
Theorem activities_lines_parse_back (get_categories : list CategoryRow)
        (get_activities get_activities' : string -> list ActivityRow)
        (search : string) (rest : list string) :
  Forall (fun row => contains_char "@" (act_name row) = false
                     /\ contains_char "@" (act_category row) = false)
         (get_activities search) ->
  map (_activities get_categories get_activities')
      (activities get_activities (search :: rest))
  = map (fun row =>
           Ok (map (fun cat => at_pair (act_name row) (cat_name cat))
                   (filter (fun cat =>
                              negb (truthy (act_category row))
                              || startswith (lower (cat_name cat))
                                            (lower (act_category row)))
                           get_categories)))
        (get_activities search).
Proof.
  intros Hrows. unfold activities. rewrite map_map.
  apply map_ext_in. intros row Hrow.
  destruct (proj1 (Forall_forall _ _) Hrows row Hrow) as [Hn Hc].
  now apply activities_one_at.
Qed.

Lemma activities_lines_parse_back_witness :
  Forall (fun row => contains_char "@" (act_name row) = false
                     /\ contains_char "@" (act_category row) = false)
         ((fun _ : string => [mkActivityRow "tea" "break"; mkActivityRow "nap" ""])
            "")
  /\ map (_activities [mkCategoryRow "Break"; mkCategoryRow "Work"] (fun _ => []))
         (activities
            (fun _ => [mkActivityRow "tea" "break"; mkActivityRow "nap" ""]) [""])
     = map (fun row =>
              Ok (map (fun cat => at_pair (act_name row) (cat_name cat))
                      (filter (fun cat =>
                                 negb (truthy (act_category row))
                                 || startswith (lower (cat_name cat))
                                               (lower (act_category row)))
                              [mkCategoryRow "Break"; mkCategoryRow "Work"])))
           ((fun _ : string => [mkActivityRow "tea" "break"; mkActivityRow "nap" ""])
              "").
Proof.
  assert (Forall (fun row => contains_char "@" (act_name row) = false
                             /\ contains_char "@" (act_category row) = false)
                 ((fun _ : string =>
                     [mkActivityRow "tea" "break"; mkActivityRow "nap" ""]) ""))
    as H by (repeat constructor).
  split; [exact H|].
  exact (activities_lines_parse_back
           [mkCategoryRow "Break"; mkCategoryRow "Work"]
           (fun _ => [mkActivityRow "tea" "break"; mkActivityRow "nap" ""])
           (fun _ => []) "" [] H).
Defined.

Lemma lower_char_idem (c : ascii) : lower_char (lower_char c) = lower_char c.
Proof. destruct c as [[] [] [] [] [] [] [] []]; reflexivity. Qed.

Lemma lower_char_at (c : ascii) :
  Ascii.eqb (lower_char c) "@" = Ascii.eqb c "@".
Proof. destruct c as [[] [] [] [] [] [] [] []]; reflexivity. Qed.

Lemma lower_idem (s : string) : lower (lower s) = lower s.
Proof.
  induction s as [|c s IH]; [reflexivity|].
  simpl. now rewrite lower_char_idem, IH.
Qed.

Lemma contains_at_lower (s : string) :
  contains_char "@" (lower s) = contains_char "@" s.
Proof.
  induction s as [|c s IH]; [reflexivity|].
  simpl. now rewrite lower_char_at, IH.
Qed.

Lemma truthy_lower (s : string) : truthy (lower s) = truthy s.
Proof. now destruct s. Qed.

(** X15: completion of the category is blind to the case of what was typed:
    the category text and its lower-cased form give the same lines. *)
Theorem activities_case_insensitive (get_categories : list CategoryRow)
        (get_activities : string -> list ActivityRow)
        (activity category : string) :
  contains_char "@" activity = false ->
  contains_char "@" category = false ->
  _activities get_categories get_activities (at_pair activity (lower category))
  = _activities get_categories get_activities (at_pair activity category).
Proof.
  intros Ha Hc.
  rewrite !activities_one_at by (now rewrite ?contains_at_lower).
  do 2 f_equal. apply filter_ext. intros cat.
  now rewrite truthy_lower, lower_idem.
Qed.

Lemma activities_case_insensitive_witness :
  contains_char "@" "code" = false
  /\ contains_char "@" "HoB" = false
  /\ _activities [mkCategoryRow "Work"; mkCategoryRow "Hobby"] (fun _ => [])
       (at_pair "code" (lower "HoB"))
     = _activities [mkCategoryRow "Work"; mkCategoryRow "Hobby"] (fun _ => [])
         (at_pair "code" "HoB").
Proof.
  split; [reflexivity | split; [reflexivity|]].
  exact (activities_case_insensitive
           [mkCategoryRow "Work"; mkCategoryRow "Hobby"] (fun _ => [])
           "code" "HoB" eq_refl eq_refl).
Defined.

Lemma startswith_empty (s : string) : startswith s "" = true.
Proof. now destruct s. Qed.

(** X16: [assist export] never raises and prints one string: the names among
    html, tsv, xml and ical, in that order, that start with the last command
    line argument, separated by newlines; with an empty argument these are
    all four, so the test for an empty argument changes nothing. *)
Theorem assist_export_formats (get_categories : list CategoryRow)
        (get_activities : string -> list ActivityRow)
        (rest : list string) (chosen : string) :
  assist get_categories get_activities ("export" :: rest) chosen
  = Ok [join newline
          (filter (fun f => startswith f chosen) ["html"; "tsv"; "xml"; "ical"])]
  /\ assist get_categories get_activities ("export" :: rest) ""
     = Ok [join newline ["html"; "tsv"; "xml"; "ical"]].
Proof.
  assert (forall c,
             assist get_categories get_activities ("export" :: rest) c
             = Ok [join newline
                     (filter (fun f => startswith f c)
                             ["html"; "tsv"; "xml"; "ical"])]) as H.
  { intros c. unfold assist. cbv beta iota zeta.
    change (String.eqb "export" "start") with false.
    change (String.eqb "export" "export") with true.
    change (split "html tsv xml ical") with ["html"; "tsv"; "xml"; "ical"].
    cbv iota. do 3 f_equal. apply filter_ext. intros f.
    destruct c; [now rewrite startswith_empty | reflexivity]. }
  split; [apply H | now rewrite H].
Qed.

Lemma last_item_snoc {A : Type} (l : list A) (x : A) :
  last_item (l ++ [x]) = Some x.
Proof.
  induction l as [|y l IH]; [reflexivity|].
  simpl. rewrite IH. destruct (l ++ [x])%list eqn:E; [|reflexivity].
  now destruct l.
Qed.

(** X17: [current] always prints exactly one line, and only the last fact of
    the day decides it: when that fact has no [end_time] the line is the
    fact's stripped text, a space and its duration; when it has one, or when
    the day has no fact, the line is the label for "No activity". *)
Theorem current_last_fact (gettext : string -> string) (facts : list Fact)
        (f : Fact) (fact_str : Fact -> string)
        (delta_format_HHMM : timedelta -> string) :
  current gettext (facts ++ [f]) fact_str delta_format_HHMM
  = [match end_time f with
     | Some _ => gettext "No activity"
     | None => fmt_pair (strip (fact_str f)) (delta_format_HHMM (delta f))
     end]
  /\ current gettext [] fact_str delta_format_HHMM = [gettext "No activity"]
  /\ List.length (current gettext facts fact_str delta_format_HHMM) = 1.
Proof.
  repeat split.
  - unfold current. rewrite last_item_snoc. now destruct (end_time f).
  - unfold current. destruct (last_item facts) as [last_fact|]; [|reflexivity].
    now destruct (end_time last_fact).
Qed.

(** ** The category totals and the order of the facts *)

Lemma filter_perm {A : Type} (p : A -> bool) (l l' : list A) :
  Permutation l l' -> Permutation (filter p l) (filter p l').
Proof.
  induction 1 as [|x l l' _ IH|x y l|l l' l'' _ IH1 _ IH2]; simpl.
  - constructor.
  - destruct (p x); [now constructor | assumption].
  - destruct (p x), (p y); try reflexivity. apply perm_swap.
  - now transitivity (filter p l').
Qed.

Lemma total_of_perm (gettext : string -> string) (c : string)
      (facts facts' : list Fact) :
  Permutation facts facts' ->
  total_of gettext c facts = total_of gettext c facts'.
Proof.
  intros Hperm. unfold total_of.
  apply sum_td_perm, Permutation_map, filter_perm, Hperm.
Qed.

(** X18: the entries of [by_cat] do not depend on the order in which the
    storage returns the facts: for a reordered fact list the dictionary holds
    the same categories with the same totals, possibly in another order. *)
Theorem categories_order_independent (gettext : string -> string)
        (facts facts' : list Fact) :
  Permutation facts facts' ->
  Permutation (categories_of gettext facts) (categories_of gettext facts').
Proof.
  intros Hperm. rewrite !categories_of_spec.
  transitivity (map (fun c => (c, total_of gettext c facts))
                    (first_seen (map (label gettext) facts'))).
  - apply Permutation_map.
    apply NoDup_Permutation; try apply first_seen_NoDup.
    intros c. rewrite !(first_seen_in gettext).
    split; intros Hin.
    + apply Permutation_in with (map (label gettext) facts);
        [now apply Permutation_map | assumption].
    + apply Permutation_in with (map (label gettext) facts');
        [apply Permutation_map; now symmetry | assumption].
  - erewrite map_ext; [reflexivity|].
    intros c. cbv beta. f_equal. now apply total_of_perm.
Qed.

Lemma categories_order_independent_witness :
  Permutation example_facts (rev example_facts)
  /\ Permutation (categories_of (fun s => s) example_facts)
                 (categories_of (fun s => s) (rev example_facts)).
Proof.
  assert (Permutation example_facts (rev example_facts)) as H
      by apply Permutation_rev.
  split; [exact H|].
  exact (categories_order_independent (fun s => s) example_facts
           (rev example_facts) H).
Defined.

(** ** The end cell in the report, and the clock *)

Lemma strftime_stamp (with_date : bool) (d : datetime) :
  strftime d (if with_date then "%Y-%m-%d %H:%M" else "%H:%M")
  = stamp with_date d.
Proof.
  destruct with_date; [apply strftime_date_time | apply strftime_time].
Qed.

(** The entries of a formatted fact, key by key. *)
Lemma fact_dict_cells (delta_format : timedelta -> string) (now : datetime)
      (f : Fact) (with_date : bool) :
  let d := fact_dict delta_format now f with_date in
  getitem "" d "start" = stamp with_date (start_time f)
  /\ getitem "" d "end" = end_cell_text with_date f
  /\ getitem "" d "duration" = delta_format (delta f)
  /\ getitem "" d "activity" = activity f
  /\ getitem "" d "category" = category f
  /\ getitem "" d "tags" = tags_text f
  /\ getitem "" d "description" = description f.
Proof.
  intros d. unfold d. rewrite fact_dict_eq. cbv zeta.
  repeat split; unfold getitem; cbn [dict_get]; cbn - [strftime].
  - apply strftime_stamp.
  - unfold end_cell_text. destruct (end_time f); [apply strftime_stamp | reflexivity].
Qed.

(** What one fact prints, from its attributes. *)
Lemma print_fact_eq (delta_format : timedelta -> string) (now : datetime)
      (widths : dict nat) (with_date : bool) (f : Fact) :
  print_fact delta_format now widths with_date f
  = row_text delta_format widths with_date f :: detail_lines f.
Proof.
  destruct (fact_dict_cells delta_format now f with_date)
    as (Hs & He & Hd & Ha & Hc & Ht & Hx).
  unfold print_fact, fact_line, cols, row_text, detail_lines. cbn [map].
  now rewrite Hs, He, Hd, Ha, Hc, Ht, Hx.
Qed.

(** C9: in the report of [_list] the row of every fact has, as its end
    cell, the empty string when the fact has no [end_time], and else the
    [end_time] as hours and minutes, behind its date exactly when the start
    and the end of the listed range fall on different calendar days; the
    clock does not enter the cell. *)
Theorem report_end_cell (gettext : string -> string)
        (delta_format : timedelta -> string) (now : datetime)
        (facts : list Fact) (range_start range_end : datetime) :
  let spans_days := negb (date_eqb (date_of range_start) (date_of range_end)) in
  let widths := compute_widths gettext delta_format now facts spans_days in
  (spans_days = true <-> date_of range_start <> date_of range_end)
  /\ _list_print gettext delta_format now facts range_start range_end
     = ([""; fact_line widths (headers gettext); separator widths]
        ++ flat_map (fun f =>
                       row_text delta_format widths spans_days f
                       :: detail_lines f)
                    facts
        ++ [separator widths]
        ++ summary_lines gettext delta_format facts)%list.
Proof.
  intros spans_days widths. split.
  - unfold spans_days. rewrite negb_true_iff, <- not_true_iff_false.
    now rewrite date_eqb_eq.
  - rewrite list_print_layout. unfold table_lines. fold spans_days widths.
    rewrite <- !app_assoc. do 2 f_equal.
    apply flat_map_ext. intros f. apply print_fact_eq.
Qed.

Example report_end_cell_two_days :
  _list_print (fun s => s) format_HhMM (mkdatetime 2012 8 2 12 0 0 0)
    [mkFact (mkdatetime 2012 8 1 22 0 0 0) (Some (mkdatetime 2012 8 2 1 30 0 0))
            (minutes_td 210) "night" "Work" [] "";
     mkFact (mkdatetime 2012 8 2 11 0 0 0) None (minutes_td 60) "day" "" [] ""]
    (mkdatetime 2012 8 1 0 0 0 0) (mkdatetime 2012 8 2 23 59 59 0)
  = [""; "Start            | End              | Duration | Activity | Category";
     "-----------------------------------------------------------------------";
     "2012-08-01 22:00 | 2012-08-02 01:30 | 3h30     | night    | Work    ";
     "2012-08-02 11:00 |                  | 1h00     | day      |         ";
     "-----------------------------------------------------------------------";
     "Work: 3h30, Unsorted: 1h00"; "Total:  4h30"; ""].
Proof. reflexivity. Qed.

Lemma observed_ended (f : Fact) (now1 now2 : datetime) (e : datetime) :
  end_time f = Some e -> observed f now1 = observed f now2.
Proof. intros E. unfold observed, delta_at. now rewrite E. Qed.

(** C10, as the code has it: [fact_dict] does not use the instant it reads
    from the clock, so for given attribute values its dictionary is the same
    under any clock; between two runs at different times on the same stored
    fact every entry but 'duration' is the same, and the whole dictionary is
    the same when the fact has an [end_time]. *)
Theorem fact_dict_clock_duration_only (delta_format : timedelta -> string)
        (now1 now2 : datetime) (f : Fact) (with_date : bool) :
  fact_dict delta_format now1 f with_date
  = fact_dict delta_format now2 f with_date
  /\ without_duration (fact_dict delta_format now1 (observed f now1) with_date)
     = without_duration (fact_dict delta_format now2 (observed f now2) with_date)
  /\ match end_time f with
     | Some _ =>
         fact_dict delta_format now1 (observed f now1) with_date
         = fact_dict delta_format now2 (observed f now2) with_date
     | None => True
     end.
Proof.
  split; [|split].
  - now rewrite !fact_dict_eq.
  - rewrite !fact_dict_eq. reflexivity.
  - destruct (end_time f) as [e|] eqn:E; [|exact I].
    rewrite (observed_ended f now1 now2 e E). now rewrite !fact_dict_eq.
Qed.

(** The dictionaries of two runs on one running fact, five minutes and an
    hour and a half after its start, differ. *)
Lemma fact_dict_two_runs_differ :
  fact_dict format_HhMM (mkdatetime 2012 8 1 9 5 0 0)
    (observed (mkFact (mkdatetime 2012 8 1 9 0 0 0) None 0%Z "tea" "" [] "")
              (mkdatetime 2012 8 1 9 5 0 0))
    false
  <> fact_dict format_HhMM (mkdatetime 2012 8 1 10 30 0 0)
       (observed (mkFact (mkdatetime 2012 8 1 9 0 0 0) None 0%Z "tea" "" [] "")
                 (mkdatetime 2012 8 1 10 30 0 0))
       false.
Proof. vm_compute. discriminate. Qed.

Example fact_dict_two_runs_durations :
  let f := mkFact (mkdatetime 2012 8 1 9 0 0 0) None 0%Z "tea" "" [] "" in
  (dict_get (fact_dict format_HhMM (mkdatetime 2012 8 1 9 5 0 0)
               (observed f (mkdatetime 2012 8 1 9 5 0 0)) false) "duration",
   dict_get (fact_dict format_HhMM (mkdatetime 2012 8 1 10 30 0 0)
               (observed f (mkdatetime 2012 8 1 10 30 0 0)) false) "duration")
  = (Some "0h05", Some "1h30").
Proof. reflexivity. Qed.

Example toordinal_ex :
  toordinal (mkdatetime 2012 8 1 0 0 0 0) = 734716%Z
  /\ dt_sub (mkdatetime 2012 3 1 0 0 0 0) (mkdatetime 2012 2 28 23 0 0 0)
     = minutes_td 1500.
Proof. split; reflexivity. Qed.
